(** * useGoogleSheets: a shallow embedding of [src/hooks/use-google.sheet.tsx]

    The hook keeps three pieces of React state ([isSubmitting], [error],
    [success]) and exposes [submitToSheet] and [reset].  The embedding has
    three layers:

    - [JS]: the fragment of the JavaScript value model the hook observes
      (truthiness, [String(...)], [trim], property reads, [Object.entries]);
    - [Eff]: a state-and-exception monad for the body of the [async]
      function, with [try]/[catch]/[finally] and one suspension point;
    - [Hook]: the hook itself, definition by definition. *)

From Stdlib Require Import String Ascii List Bool ZArith NArith Lia.
From Stdlib Require Import DecimalString Permutation.
Import ListNotations.

Local Open Scope list_scope.
Local Open Scope string_scope.

(* ===================================================================== *)
(** * JavaScript values *)
(* ===================================================================== *)

Module JS.

(** What a [throw] delivers to a [catch].  The hook inspects a caught value
    only through [err instanceof Error] and, for instances, [err.message];
    any other thrown value carries nothing the code looks at. *)
Record Error : Type := new_Error { message : string }.

Inductive exn : Type :=
| ErrorInstance (e : Error)
| NonError.

(** Completion of a synchronous call: a value, or a throw. *)
Inductive completion (A : Type) : Type :=
| Normal (a : A)
| Throw (e : exn).
Arguments Normal {A} a.
Arguments Throw {A} e.

(** ** Strings and [String.prototype.trim]

    A JavaScript string is given by its UTF-8 bytes, so that every
    character, the white space beyond Latin-1 included, can be written.
    Bytes that are not the UTF-8 form of a string stand for no string. *)

(** The string of the bytes with the given codes. *)
Definition bytes (codes : list N) : string :=
  fold_right (fun n s => String (ascii_of_N n) s) EmptyString codes.

(** The characters of a string, each with its own bytes: a lead byte below
    192 stands alone, one below 224 takes one more byte, one below 240 two
    more, any other three more. *)
Fixpoint characters (s : string) : list string :=
  match s with
  | EmptyString => []
  | String c s1 =>
      let n := N_of_ascii c in
      if (n <? 192)%N then String c EmptyString :: characters s1
      else
        match s1 with
        | EmptyString => [String c EmptyString]
        | String c1 s2 =>
            if (n <? 224)%N
            then String c (String c1 EmptyString) :: characters s2
            else
              match s2 with
              | EmptyString => String c EmptyString :: characters s1
              | String c2 s3 =>
                  if (n <? 240)%N
                  then String c (String c1 (String c2 EmptyString)) :: characters s3
                  else
                    match s3 with
                    | EmptyString => String c EmptyString :: characters s1
                    | String c3 s4 =>
                        String c (String c1 (String c2 (String c3 EmptyString)))
                          :: characters s4
                    end
              end
        end
  end.

Definition join (l : list string) : string := fold_right String.append EmptyString l.

(** White space and line terminators: TAB, LF, VT, FF, CR, SPACE, U+00A0,
    U+1680, U+2000 to U+200A, U+2028, U+2029, U+202F, U+205F, U+3000 and
    U+FEFF. *)
Definition white_space : list string :=
  [bytes [9]; bytes [10]; bytes [11]; bytes [12]; bytes [13]; bytes [32];
   bytes [194; 160];
   bytes [225; 154; 128];
   bytes [226; 128; 128]; bytes [226; 128; 129]; bytes [226; 128; 130];
   bytes [226; 128; 131]; bytes [226; 128; 132]; bytes [226; 128; 133];
   bytes [226; 128; 134]; bytes [226; 128; 135]; bytes [226; 128; 136];
   bytes [226; 128; 137]; bytes [226; 128; 138];
   bytes [226; 128; 168]; bytes [226; 128; 169];
   bytes [226; 128; 175];
   bytes [226; 129; 159];
   bytes [227; 128; 128];
   bytes [239; 187; 191]]%N.

Definition is_white_space (character : string) : bool :=
  existsb (String.eqb character) white_space.

Fixpoint dropWhile {A} (p : A -> bool) (l : list A) : list A :=
  match l with
  | [] => []
  | x :: l' => if p x then dropWhile p l' else l
  end.

(** [s.trim()]: the characters of [s] without the white space at either
    end. *)
Definition trim (s : string) : string :=
  join (rev (dropWhile is_white_space
               (rev (dropWhile is_white_space (characters s))))).

(** Every character of the string is white space. *)
Definition all_white_space (s : string) : bool :=
  forallb is_white_space (characters s).

(** ** Values *)

(** The safe integers, [-(2^53 - 1) .. 2^53 - 1]: each is a double, and its
    string form is its plain decimal form. *)
Definition safe (z : Z) : bool := (Z.abs z <=? 9007199254740991)%Z.

(** Numbers: [NaN], the infinities, the safe integers by value ([Finite 0 _]
    stands for both [+0] and [-0], which the hook cannot tell apart), and
    every other double (a fractional one, an integer beyond the safe range)
    by its string form, which is never blank: [1.5] is [Double "1.5" _],
    [2 ** 64] is [Double "18446744073709552000" _], [1e21] is
    [Double "1e+21" _].  A text that no double prints as stands for no
    number. *)
Inductive number : Type :=
| NaN
| Infinity (negative : bool)
| Finite (z : Z) (is_safe : safe z = true)
| Double (text : string) (inked : all_white_space text = false).

(** Values of type [any].  A string is given by its UTF-8 bytes.
    An object (array, function, plain object) is truthy whatever it holds,
    and beyond that the hook only ever coerces it to a string; it is
    represented by the completion of that coercion. *)
Inductive value : Type :=
| VUndefined
| VNull
| VBool (b : bool)
| VNumber (n : number)
| VBigInt (z : Z)
| VString (s : string)
| VSymbol (description : string)
| VObject (toString : completion string).

Definition decimal (z : Z) : string := NilZero.string_of_int (Z.to_int z).

Definition Number_toString (n : number) : string :=
  match n with
  | NaN => "NaN"
  | Infinity false => "Infinity"
  | Infinity true => "-Infinity"
  | Finite z _ => decimal z
  | Double text _ => text
  end.

(** [!!v]: the falsy values are [undefined], [null], [false], [0], [NaN],
    [0n] and the empty string. *)
Definition ToBoolean (v : value) : bool :=
  match v with
  | VUndefined | VNull => false
  | VBool b => b
  | VNumber NaN => false
  | VNumber (Infinity _) => true
  | VNumber (Finite z _) => negb (Z.eqb z 0)
  | VNumber (Double _ _) => true
  | VBigInt z => negb (Z.eqb z 0)
  | VString s => negb (String.eqb s "")
  | VSymbol _ => true
  | VObject _ => true
  end.

(** [String(v)], the explicit conversion (which accepts symbols). *)
Definition String_ (v : value) : completion string :=
  match v with
  | VUndefined => Normal "undefined"
  | VNull => Normal "null"
  | VBool true => Normal "true"
  | VBool false => Normal "false"
  | VNumber n => Normal (Number_toString n)
  | VBigInt z => Normal (decimal z)
  | VString s => Normal s
  | VSymbol d => Normal ("Symbol(" ++ d ++ ")")
  | VObject c => c
  end.

(** [a || b] on values. *)
Definition or_ (a b : value) : value := if ToBoolean a then a else b.

(** ** Records

    A [Record<string, any>] is a plain object (an object literal, a parsed
    or copied one): the list of its own enumerable properties in the order
    they were created, on top of [Object.prototype].  A property is given by
    the value a read of it yields, which covers an accessor that answers as
    a data property would.  A well-formed record names each key once. *)
Definition record : Type := list (string * value).

Definition wf_record (o : record) : Prop := NoDup (map fst o).

Fixpoint own (o : record) (key : string) : option value :=
  match o with
  | [] => None
  | (k, v) :: o' => if String.eqb k key then Some v else own o' key
  end.

(** The string form of a built-in function. *)
Definition native_function (name : string) : value :=
  VObject (Normal ("function " ++ name ++ "() { [native code] }")).

(** What a plain object inherits: the members of [Object.prototype].  Its
    methods are functions; [__proto__] reads as the prototype itself. *)
Definition Object_prototype (key : string) : option value :=
  if String.eqb key "constructor" then Some (native_function "Object")
  else if String.eqb key "__proto__" then Some (VObject (Normal "[object Object]"))
  else if existsb (String.eqb key)
            ["toString"; "toLocaleString"; "valueOf"; "hasOwnProperty";
             "isPrototypeOf"; "propertyIsEnumerable";
             "__defineGetter__"; "__defineSetter__";
             "__lookupGetter__"; "__lookupSetter__"]
       then Some (native_function key)
  else None.

(** [o[key]]: the record's own property, else the inherited member, else
    [undefined]. *)
Definition get (o : record) (key : string) : value :=
  match own o key with
  | Some v => v
  | None =>
      match Object_prototype key with
      | Some v => v
      | None => VUndefined
      end
  end.

(** A key is an array index when it is the canonical decimal form of an
    integer in [0, 2^32 - 2]. *)
Definition array_index (key : string) : option N :=
  match NilEmpty.uint_of_string key with
  | Some d =>
      let n := N.of_uint d in
      if String.eqb (NilZero.string_of_uint (N.to_uint n)) key && (n <? 4294967295)%N
      then Some n else None
  | None => None
  end.

Definition is_array_index (key : string) : bool :=
  match array_index key with Some _ => true | None => false end.

Fixpoint insert_index (n : N) (e : string * value) (l : list (N * (string * value)))
  : list (N * (string * value)) :=
  match l with
  | [] => [(n, e)]
  | (m, e') :: l' =>
      if (n <=? m)%N then (n, e) :: l else (m, e') :: insert_index n e l'
  end.

Fixpoint index_entries (o : record) : list (N * (string * value)) :=
  match o with
  | [] => []
  | (k, v) :: o' =>
      match array_index k with
      | Some n => insert_index n (k, v) (index_entries o')
      | None => index_entries o'
      end
  end.

(** [Object.entries(o)]: own properties, array-index keys first in ascending
    numeric order, then every other key in creation order. *)
Definition Object_entries (o : record) : list (string * value) :=
  (map snd (index_entries o)
     ++ filter (fun e => negb (is_array_index (fst e))) o)%list.

End JS.

Import JS.

(* ===================================================================== *)
(** * Effects of the hook *)
(* ===================================================================== *)

Module Eff.

(** The three [useState] cells. *)
Record State : Type := mkState {
  isSubmitting : bool;
  error : option string;      (* [string | null] *)
  success : bool
}.

(** A [URL] object: its query as the list [url.searchParams] iterates, and
    everything else ([origin], [pathname], [hash], ...) as one string. *)
Record URL : Type := mkURL {
  location : string;
  searchParams : list (string * string)
}.

(** [url.searchParams.append(name, value)] *)
Definition append (url : URL) (name value : string) : URL :=
  mkURL (location url) (searchParams url ++ [(name, value)])%list.

(** What leaves the hook: the request, the two callbacks and the console. *)
Inductive event : Type :=
| Fetch (url : URL)           (* [fetch(url.toString(), {method: "GET", mode: "no-cors"})] *)
| OnSuccess (data : record)
| OnError (e : Error)
| ConsoleError (err : exn).

Record World : Type := mkWorld {
  state : State;
  log : list event            (* oldest first *)
}.

(** How the promise returned by [fetch] settles, if it does. *)
Inductive settlement : Type :=
| Fulfilled
| RejectedWith (e : exn)
| Pending.

(** How the promise of an [async] function ends: fulfilled, rejected, or
    still waiting at an [await] whose promise never settles. *)
Inductive result (A : Type) : Type :=
| Returned (a : A)
| Rejected (e : exn)
| Suspended.
Arguments Returned {A} a.
Arguments Rejected {A} e.
Arguments Suspended {A}.

Definition M (A : Type) : Type := World -> World * result A.

Definition ret {A} (a : A) : M A := fun w => (w, Returned a).

Definition bind {A B} (m : M A) (k : A -> M B) : M B :=
  fun w =>
    match m w with
    | (w', Returned a) => k a w'
    | (w', Rejected e) => (w', Rejected e)
    | (w', Suspended) => (w', Suspended)
    end.

Declare Scope eff_scope.
Delimit Scope eff_scope with eff.
Notation "x <- m ;; k" := (bind m (fun x => k))
  (at level 100, m at next level, right associativity) : eff_scope.
Notation "m ;; k" := (bind m (fun _ => k))
  (at level 100, right associativity) : eff_scope.

(** A synchronous call inside the [async] body. *)
Definition lift {A} (c : completion A) : M A :=
  fun w =>
    match c with
    | Normal a => (w, Returned a)
    | Throw e => (w, Rejected e)
    end.

(** [await p] *)
Definition await (p : settlement) : M unit :=
  fun w =>
    match p with
    | Fulfilled => (w, Returned tt)
    | RejectedWith e => (w, Rejected e)
    | Pending => (w, Suspended)
    end.

Definition emit (ev : event) : M unit :=
  fun w => (mkWorld (state w) (log w ++ [ev])%list, Returned tt).

Definition setIsSubmitting (b : bool) : M unit :=
  fun w => (mkWorld (mkState b (error (state w)) (success (state w))) (log w), Returned tt).

Definition setError (e : option string) : M unit :=
  fun w => (mkWorld (mkState (isSubmitting (state w)) e (success (state w))) (log w), Returned tt).

Definition setSuccess (b : bool) : M unit :=
  fun w => (mkWorld (mkState (isSubmitting (state w)) (error (state w)) b) (log w), Returned tt).

(** [try { body } catch (err) { handler err } finally { final }].  A body or
    handler that is suspended for ever never reaches the later blocks; a
    throw from the handler leaves after [final] has run. *)
Definition try_catch_finally {A} (body : M A) (handler : exn -> M A) (final : M unit) : M A :=
  fun w =>
    let after (wr : World * result A) : World * result A :=
      match wr with
      | (w', Suspended) => (w', Suspended)
      | (w', r) =>
          match final w' with
          | (w'', Returned _) => (w'', r)
          | (w'', Rejected e) => (w'', Rejected e)
          | (w'', Suspended) => (w'', Suspended)
          end
      end in
    match body w with
    | (w', Rejected err) => after (handler err w')
    | wr => after wr
    end.

End Eff.

Import Eff.
Local Open Scope eff_scope.

(* ===================================================================== *)
(** * The hook *)
(* ===================================================================== *)

(** What the hook reads from its surroundings at submission time. *)
Record Env : Type := mkEnv {
  NEXT_PUBLIC_GOOGLE_SCRIPT_URL : option string;   (* [process.env....] *)
  URL_new : string -> completion URL;              (* [new URL(s)] *)
  fetch : URL -> settlement
}.

(** [UseGoogleSheetsOptions]; an omitted [validateRequired] is [[]].  The
    callbacks and the transform are the caller's code: the hook sees of them
    only whether a call returns or throws (and what the transform returns);
    they are taken not to call back into the hook. *)
Record UseGoogleSheetsOptions : Type := mkOptions {
  onSuccess : option (record -> completion unit);
  onError : option (Error -> completion unit);
  validateRequired : list string;
  transformData : option (record -> completion record)
}.

(** [!s] for [s : string | null | undefined] *)
Definition falsy (s : option string) : bool :=
  match s with
  | None => true
  | Some s => String.eqb s ""
  end.

(** The [forEach] over the entries: each step appends one parameter to the
    same [URL] object; a throwing [String(...)] abandons the loop. *)
Fixpoint forEach_append (entries : list (string * value)) (url : URL) : completion URL :=
  match entries with
  | [] => Normal url
  | (key, value) :: rest =>
      match String_ (or_ value (VString "")) with
      | Normal s => forEach_append rest (append url key s)
      | Throw e => Throw e
      end
  end.

(** [err instanceof Error ? err.message : "Failed to submit data"] *)
Definition errorMessage (err : exn) : string :=
  match err with
  | ErrorInstance e => message e
  | NonError => "Failed to submit data"
  end.

(** [err instanceof Error ? err : new Error(errorMessage)] *)
Definition as_Error (err : exn) : Error :=
  match err with
  | ErrorInstance e => e
  | NonError => new_Error (errorMessage err)
  end.

Section Hook.

Context (env : Env) (options : UseGoogleSheetsOptions).

Definition reset : M unit :=
  setError None ;;
  setSuccess false.

Fixpoint validate_fields (fields : list string) (data : record) : completion (option string) :=
  match fields with
  | [] => Normal None
  | field :: rest =>
      if negb (ToBoolean (get data field))
      then Normal (Some (field ++ " is required"))
      else
        match String_ (get data field) with
        | Throw e => Throw e
        | Normal s =>
            if String.eqb (trim s) ""
            then Normal (Some (field ++ " is required"))
            else validate_fields rest data
        end
  end.

Definition validateData (data : record) : completion (option string) :=
  validate_fields (validateRequired options) data.

(** The [try] block of [submitToSheet]. *)
Definition try_block (data : record) (scriptUrl : string) : M unit :=
  url <- lift (URL_new env scriptUrl) ;;
  finalData <- lift (match transformData options with
                     | Some transform => transform data
                     | None => Normal data
                     end) ;;
  url <- lift (forEach_append (Object_entries finalData) url) ;;
  emit (Fetch url) ;;
  await (fetch env url) ;;
  setSuccess true ;;
  match onSuccess options with
  | Some callback => emit (OnSuccess data) ;; lift (callback data)
  | None => ret tt
  end.

(** Its [catch] block. *)
Definition catch_block (err : exn) : M unit :=
  emit (ConsoleError err) ;;
  setError (Some (errorMessage err)) ;;
  match onError options with
  | Some callback => emit (OnError (as_Error err)) ;; lift (callback (as_Error err))
  | None => ret tt
  end.

Definition submitToSheet (data : record) : M unit :=
  setIsSubmitting true ;;
  setError None ;;
  setSuccess false ;;
  validationError <- lift (validateData data) ;;
  if negb (falsy validationError) then
    setError validationError ;;
    setIsSubmitting false
  else
    match NEXT_PUBLIC_GOOGLE_SCRIPT_URL env with
    | None =>
        setError (Some "Google Script URL not configured in environment variables") ;;
        setIsSubmitting false
    | Some scriptUrl =>
        if String.eqb scriptUrl "" then
          setError (Some "Google Script URL not configured in environment variables") ;;
          setIsSubmitting false
        else
          try_catch_finally
            (try_block data scriptUrl)
            catch_block
            (setIsSubmitting false)
    end.

End Hook.

(* ===================================================================== *)
(** * Observations *)
(* ===================================================================== *)

(** The state of a freshly mounted hook. *)
Definition idle : State := mkState false None false.

(** Truthiness of the [error] cell. *)
Definition truthy (e : option string) : bool := negb (falsy e).

(** The requests, [onSuccess] arguments and [onError] arguments in a log. *)
Definition requests (l : list event) : list URL :=
  flat_map (fun ev => match ev with Fetch u => [u] | _ => [] end) l.

Definition onSuccess_calls (l : list event) : list record :=
  flat_map (fun ev => match ev with OnSuccess d => [d] | _ => [] end) l.

Definition onError_calls (l : list event) : list Error :=
  flat_map (fun ev => match ev with OnError e => [e] | _ => [] end) l.

(** The world once the three cells have been reset at the top of
    [submitToSheet]. *)
Definition submitting (w : World) : World :=
  mkWorld (mkState true None false) (log w).

Definition configuration_error : string :=
  "Google Script URL not configured in environment variables".

(** The mapping the [try] block serialises. *)
Definition finalData (options : UseGoogleSheetsOptions) (data : record) : completion record :=
  match transformData options with
  | Some transform => transform data
  | None => Normal data
  end.

(** The request URL the [try] block builds before it calls [fetch], or what
    it throws on the way: from [new URL], from the transform, or from a
    [String(...)] inside the loop. *)
Definition prepare (env : Env) (options : UseGoogleSheetsOptions)
    (data : record) (scriptUrl : string) : completion URL :=
  match URL_new env scriptUrl with
  | Throw e => Throw e
  | Normal url =>
      match finalData options data with
      | Throw e => Throw e
      | Normal final => forEach_append (Object_entries final) url
      end
  end.

(** The [onSuccess] call of the [try] block, when a callback was given. *)
Definition success_events (options : UseGoogleSheetsOptions) (data : record) : list event :=
  match onSuccess options with
  | Some _ => [OnSuccess data]
  | None => []
  end.

(** [onSuccess], if given, returns on this record. *)
Definition onSuccess_returns (options : UseGoogleSheetsOptions) (data : record) : Prop :=
  forall callback, onSuccess options = Some callback -> callback data = Normal tt.

(** [onError], if given, returns on every error. *)
Definition onError_returns (options : UseGoogleSheetsOptions) : Prop :=
  forall callback e, onError options = Some callback -> callback e = Normal tt.

(** The events of the [catch] block. *)
Definition catch_events (options : UseGoogleSheetsOptions) (err : exn) : list event :=
  ConsoleError err ::
  match onError options with
  | Some _ => [OnError (as_Error err)]
  | None => []
  end.

(** How the [catch] block ends: it throws only what [onError] throws. *)
Definition catch_result (options : UseGoogleSheetsOptions) (err : exn) : result unit :=
  match onError options with
  | Some callback =>
      match callback (as_Error err) with
      | Normal _ => Returned tt
      | Throw e => Rejected e
      end
  | None => Returned tt
  end.

(** [String(v)] returns. *)
Definition coerces (v : value) : bool :=
  match String_ v with Normal _ => true | Throw _ => false end.

(** The test validation applies to one field:
    [!data[field] || String(data[field]).trim() === ""]. *)
Definition blank (data : record) (field : string) : bool :=
  negb (ToBoolean (get data field))
  || match String_ (get data field) with
     | Normal s => String.eqb (trim s) ""
     | Throw _ => false
     end.

(** The parameter the loop appends for one entry: the key with the string
    form of a truthy value, or with the empty string for a falsy one. *)
Definition parameter_of (entry : string * value) (p : string * string) : Prop :=
  fst p = fst entry /\
  if ToBoolean (snd entry) then String_ (snd entry) = Normal (snd p) else snd p = "".

(** ** The claims as the specification words them *)

(** Required-field test of the specification: the field is absent, or its
    trimmed string form is empty. *)
Definition spec_missing (data : record) (field : string) : bool :=
  match own data field with
  | None => true
  | Some v =>
      match String_ v with
      | Normal s => String.eqb (trim s) ""
      | Throw _ => false
      end
  end.

(** ** Sample surroundings *)

Definition endpoint : string := "https://script.google.com/macros/s/demo/exec".

(** An environment in which [endpoint] is configured, parses as a URL with
    no query of its own, and the request goes through. *)
Definition online : Env :=
  mkEnv (Some endpoint)
        (fun s => if String.eqb s endpoint then Normal (mkURL s [])
                  else Throw (ErrorInstance (new_Error "Invalid URL")))
        (fun _ => Fulfilled).

Definition unconfigured : Env :=
  mkEnv None (URL_new online) (fetch online).

Definition offline : Env :=
  mkEnv (Some endpoint) (URL_new online)
        (fun _ => RejectedWith (ErrorInstance (new_Error "Failed to fetch"))).

Definition no_options : UseGoogleSheetsOptions := mkOptions None None [] None.

Definition fresh : World := mkWorld idle [].

(** Parameter of the specification for one entry: the key with the string
    form of the value, the empty string standing in exactly for [null] and
    [undefined]. *)
Definition spec_parameter_of (entry : string * value) (p : string * string) : Prop :=
  fst p = fst entry /\
  match snd entry with
  | VNull | VUndefined => snd p = ""
  | v => String_ v = Normal (snd p)
  end.

(** ** The ways a call of [submitToSheet] can go

    One constructor per path through the function, each with the world it
    leaves and the fate of the returned promise. *)
Inductive submit_path (env : Env) (options : UseGoogleSheetsOptions)
    (data : record) (w : World) : World * result unit -> Prop :=
| ValidationThrows e :
    validateData options data = Throw e ->
    submit_path env options data w (submitting w, Rejected e)
| ValidationFailed msg :
    validateData options data = Normal (Some msg) ->
    msg <> "" ->
    submit_path env options data w
      (mkWorld (mkState false (Some msg) false) (log w), Returned tt)
| ConfigMissing :
    validateData options data = Normal None ->
    falsy (NEXT_PUBLIC_GOOGLE_SCRIPT_URL env) = true ->
    submit_path env options data w
      (mkWorld (mkState false (Some configuration_error) false) (log w), Returned tt)
| PrepareFailed scriptUrl err :
    validateData options data = Normal None ->
    NEXT_PUBLIC_GOOGLE_SCRIPT_URL env = Some scriptUrl ->
    prepare env options data scriptUrl = Throw err ->
    submit_path env options data w
      (mkWorld (mkState false (Some (errorMessage err)) false)
               (log w ++ catch_events options err),
       catch_result options err)
| NetworkFailed scriptUrl url err :
    validateData options data = Normal None ->
    NEXT_PUBLIC_GOOGLE_SCRIPT_URL env = Some scriptUrl ->
    prepare env options data scriptUrl = Normal url ->
    fetch env url = RejectedWith err ->
    submit_path env options data w
      (mkWorld (mkState false (Some (errorMessage err)) false)
               (log w ++ Fetch url :: catch_events options err),
       catch_result options err)
| InFlight scriptUrl url :
    validateData options data = Normal None ->
    NEXT_PUBLIC_GOOGLE_SCRIPT_URL env = Some scriptUrl ->
    prepare env options data scriptUrl = Normal url ->
    fetch env url = Pending ->
    submit_path env options data w
      (mkWorld (mkState true None false) (log w ++ [Fetch url]), Suspended)
| Success scriptUrl url :
    validateData options data = Normal None ->
    NEXT_PUBLIC_GOOGLE_SCRIPT_URL env = Some scriptUrl ->
    prepare env options data scriptUrl = Normal url ->
    fetch env url = Fulfilled ->
    onSuccess_returns options data ->
    submit_path env options data w
      (mkWorld (mkState false None true)
               (log w ++ Fetch url :: success_events options data),
       Returned tt)
| CallbackFailed scriptUrl url callback err :
    validateData options data = Normal None ->
    NEXT_PUBLIC_GOOGLE_SCRIPT_URL env = Some scriptUrl ->
    prepare env options data scriptUrl = Normal url ->
    fetch env url = Fulfilled ->
    onSuccess options = Some callback ->
    callback data = Throw err ->
    submit_path env options data w
      (mkWorld (mkState false (Some (errorMessage err)) true)
               (log w ++ Fetch url :: OnSuccess data :: catch_events options err),
       catch_result options err).

(** The [error] cell holds a string. *)
Definition is_set (e : option string) : bool :=
  match e with Some _ => true | None => false end.

(** ** Sample records and options *)

Definition visitor : record :=
  [("name", VString "A"); ("age", VNumber (Finite 0 eq_refl))].

Definition contact : record :=
  [("name", VString "A"); ("email", VString "a@b.com")].

Definition require_age : UseGoogleSheetsOptions :=
  mkOptions None None ["age"] None.

Definition require_contact : UseGoogleSheetsOptions :=
  mkOptions None None ["name"; "email"] None.

Definition observed : UseGoogleSheetsOptions :=
  mkOptions (Some (fun _ => Normal tt)) (Some (fun _ => Normal tt)) ["name"] None.

(** A transform in the manner of the example in the specification:
    [{name, age}] becomes [{n: name, a: String(age)}]. *)
Definition shorten (data : record) : completion record :=
  match String_ (get data "age") with
  | Normal a => Normal [("n", get data "name"); ("a", VString a)]
  | Throw e => Throw e
  end.

Definition shortening : UseGoogleSheetsOptions :=
  mkOptions None None ["name"] (Some shorten).

Definition patient : record :=
  [("name", VString "A"); ("age", VNumber (Finite 5 eq_refl))].

(** Callbacks that throw. *)
Definition onSuccess_throws (msg : string) : UseGoogleSheetsOptions :=
  mkOptions (Some (fun _ => Throw (ErrorInstance (new_Error msg))))
            (Some (fun _ => Normal tt)) [] None.

Definition onError_throws : UseGoogleSheetsOptions :=
  mkOptions None (Some (fun _ => Throw NonError)) [] None.

(** An environment whose configured endpoint is not a URL. *)
Definition misconfigured : Env :=
  mkEnv (Some "not a url") (URL_new online) (fetch online).

(** An environment whose endpoint has a query of its own. *)
Definition with_query : Env :=
  mkEnv (Some "https://script.google.com/macros/s/demo/exec?sheet=2")
        (fun _ => Normal (mkURL endpoint [("sheet", "2")]))
        (fetch online).

(** A record with a [sheet] key, and a transform that keeps the name only:
    [{sheet, name}] becomes [{n: name}]. *)
Definition tabbed : record :=
  [("sheet", VString "2"); ("name", VString "A")].

Definition keep_name (data : record) : completion record :=
  Normal [("n", get data "name")].

Definition renaming : UseGoogleSheetsOptions :=
  mkOptions None None ["name"] (Some keep_name).

(** An object with no [toString] to call, such as [Object.create(null)]. *)
Definition bare_object : value :=
  VObject (Throw (ErrorInstance (new_Error "Cannot convert object to primitive value"))).

(** After the [catch] block, the [finally] block runs and keeps its result. *)
Ltac settle_catch :=
  unfold catch_result;
  destruct (onError _) as [?callback|];
  [destruct (_ (as_Error _)) as [[]|?e]|]; reflexivity.

(** ** Readings of the validation test *)

(** What validation lets through, by kind of value: a string, or an object
    by its string form, with some character that is not white space; [true];
    a number other than [0] and [NaN]; a bigint other than [0n]; a symbol. *)
Definition accepted (v : value) : bool :=
  match v with
  | VUndefined | VNull => false
  | VBool b => b
  | VNumber NaN => false
  | VNumber (Infinity _) => true
  | VNumber (Finite z _) => negb (Z.eqb z 0)
  | VNumber (Double _ _) => true
  | VBigInt z => negb (Z.eqb z 0)
  | VString s => negb (all_white_space s)
  | VSymbol _ => true
  | VObject (Normal s) => negb (all_white_space s)
  | VObject (Throw _) => false
  end.

(** A call on a freshly mounted hook. *)
Definition attempt (env : Env) (options : UseGoogleSheetsOptions) (data : record)
  : World * result unit :=
  submitToSheet env options data (mkWorld idle []).

(* ===================================================================== *)
(** * Facts about the value model *)
(* ===================================================================== *)

Lemma append_not_empty (a b : string) : b <> "" -> String.eqb (a ++ b) "" = false.
Proof.
  intros Hb. destruct a as [|c a]; simpl.
  - destruct b; [congruence | reflexivity].
  - reflexivity.
Qed.

Lemma falsy_is_required (field : string) : falsy (Some (field ++ " is required")) = false.
Proof. simpl. apply append_not_empty. discriminate. Qed.

Lemma falsy_values_coerce (v : value) : ToBoolean v = false -> coerces v = true.
Proof. destruct v as [| |[|]|n|z|s|d|c]; simpl; try reflexivity; discriminate. Qed.

(** ** [Object.entries] lists exactly the own properties *)

Lemma In_insert_index n e l x :
  In x (insert_index n e l) <-> x = (n, e) \/ In x l.
Proof.
  induction l as [|[m e'] l IH]; simpl.
  - intuition.
  - destruct (n <=? m)%N; simpl; rewrite ?IH; intuition.
Qed.

Lemma In_index_entries (o : record) e :
  In e (map snd (index_entries o)) <-> In e o /\ is_array_index (fst e) = true.
Proof.
  unfold is_array_index.
  induction o as [|[k v] o IH]; simpl.
  - intuition.
  - destruct (array_index k) eqn:Hk.
    + rewrite in_map_iff. split.
      * intros [[m x] [Hx Hin]]. simpl in Hx. subst x.
        apply In_insert_index in Hin. destruct Hin as [Heq | Hin].
        -- inversion Heq; subst. simpl. rewrite Hk. auto.
        -- assert (In e (map snd (index_entries o))) as H
             by (apply in_map_iff; exists (m, e); auto).
           apply IH in H. intuition.
      * intros [[Heq | Hin] Hidx].
        -- subst e. exists (n, (k, v)). split; [reflexivity|].
           apply In_insert_index. auto.
        -- assert (In e (map snd (index_entries o))) as H by (apply IH; auto).
           apply in_map_iff in H. destruct H as [[m x] [Hx Hin']].
           exists (m, x). split; [assumption|].
           apply In_insert_index. auto.
    + rewrite IH. split.
      * intuition.
      * intros [[Heq | Hin] Hidx]; [|auto].
        subst e. simpl in Hidx. rewrite Hk in Hidx. discriminate.
Qed.

Lemma In_Object_entries (o : record) e : In e (Object_entries o) <-> In e o.
Proof.
  unfold Object_entries. rewrite in_app_iff, In_index_entries, filter_In.
  destruct (is_array_index (fst e)); simpl; intuition congruence.
Qed.

Lemma index_entries_none (o : record) :
  Forall (fun e => is_array_index (fst e) = false) o -> index_entries o = [].
Proof.
  unfold is_array_index.
  induction 1 as [|[k v] o Hk _ IH]; simpl; [reflexivity|].
  simpl in Hk. destruct (array_index k); [discriminate | exact IH].
Qed.

Lemma Object_entries_insertion_order (o : record) :
  Forall (fun e => is_array_index (fst e) = false) o -> Object_entries o = o.
Proof.
  intros H. unfold Object_entries. rewrite (index_entries_none o H). simpl.
  induction H as [|e o He _ IH]; simpl; [reflexivity|].
  rewrite He. simpl. f_equal. exact IH.
Qed.

(** [Object.entries] keeps every property, once. *)
Lemma insert_index_permutation n e l :
  Permutation (insert_index n e l) ((n, e) :: l).
Proof.
  induction l as [|[m e'] l IH]; simpl; [reflexivity|].
  destruct (n <=? m)%N; [reflexivity|].
  rewrite IH. apply perm_swap.
Qed.

Lemma Object_entries_permutation (o : record) : Permutation (Object_entries o) o.
Proof.
  unfold Object_entries, is_array_index.
  induction o as [|[k v] o IH]; simpl; [reflexivity|].
  destruct (array_index k) as [n|]; simpl.
  - rewrite insert_index_permutation. simpl. constructor. exact IH.
  - symmetry. apply Permutation_cons_app. symmetry. exact IH.
Qed.

(** ** The serialisation loop *)

Lemma forEach_append_params entries : forall url,
  Forall (fun e => coerces (snd e) = true) entries ->
  exists params,
    forEach_append entries url
      = Normal (mkURL (location url) (searchParams url ++ params))
    /\ Forall2 parameter_of entries params.
Proof.
  induction entries as [|[k v] entries IH]; intros url Hc.
  - exists []. simpl. rewrite app_nil_r. destruct url; auto.
  - inversion Hc as [|? ? Hv Hrest]; subst. simpl in Hv.
    simpl. unfold or_. unfold coerces in Hv.
    destruct (ToBoolean v) eqn:Hb.
    + destruct (String_ v) as [s|] eqn:Hs; [|discriminate].
      destruct (IH (append url k s) Hrest) as [params [Hrun Hall]].
      exists ((k, s) :: params). split.
      * rewrite Hrun. simpl. rewrite <- app_assoc. reflexivity.
      * constructor; [|assumption]. unfold parameter_of. simpl. rewrite Hb. auto.
    + simpl.
      destruct (IH (append url k "") Hrest) as [params [Hrun Hall]].
      exists ((k, "") :: params). split.
      * rewrite Hrun. simpl. rewrite <- app_assoc. reflexivity.
      * constructor; [|assumption]. unfold parameter_of. simpl. rewrite Hb. auto.
Qed.

(** ** Validation *)

Lemma validate_fields_find (data : record) fields :
  Forall (fun field => coerces (get data field) = true) fields ->
  validate_fields fields data
    = Normal (option_map (fun field => field ++ " is required")
                         (find (blank data) fields)).
Proof.
  induction 1 as [|field fields Hc _ IH]; simpl; [reflexivity|].
  unfold blank, coerces in *.
  destruct (ToBoolean (get data field)); simpl; [|reflexivity].
  destruct (String_ (get data field)) as [s|]; [|discriminate].
  destruct (String.eqb (trim s) ""); [reflexivity | exact IH].
Qed.

Lemma validate_fields_message (data : record) fields msg :
  validate_fields fields data = Normal (Some msg) ->
  exists field, In field fields /\ msg = field ++ " is required".
Proof.
  induction fields as [|field fields IH]; simpl; [discriminate|].
  destruct (ToBoolean (get data field)); simpl.
  - destruct (String_ (get data field)) as [s|]; [|discriminate].
    destruct (String.eqb (trim s) "").
    + intros H. inversion H. eauto.
    + intros H. destruct (IH H) as [f [Hin Hf]]. eauto.
  - intros H. inversion H. eauto.
Qed.

Lemma requests_app l1 l2 : requests (l1 ++ l2) = (requests l1 ++ requests l2)%list.
Proof. apply flat_map_app. Qed.

Lemma onSuccess_calls_app l1 l2 :
  onSuccess_calls (l1 ++ l2) = (onSuccess_calls l1 ++ onSuccess_calls l2)%list.
Proof. apply flat_map_app. Qed.

Lemma onError_calls_app l1 l2 :
  onError_calls (l1 ++ l2) = (onError_calls l1 ++ onError_calls l2)%list.
Proof. apply flat_map_app. Qed.

(* ===================================================================== *)
(** * The paths through [submitToSheet] *)
(* ===================================================================== *)

Lemma submit_validation_throws env options data w e :
  validateData options data = Throw e ->
  submitToSheet env options data w = (submitting w, Rejected e).
Proof.
  intros H. unfold submitToSheet, bind, lift, setIsSubmitting, setError, setSuccess.
  simpl. rewrite H. reflexivity.
Qed.

Lemma submit_validation_error env options data w msg :
  validateData options data = Normal (Some msg) ->
  submitToSheet env options data w
    = (mkWorld (mkState false (Some msg) false) (log w), Returned tt).
Proof.
  intros H. unfold submitToSheet, bind, lift, setIsSubmitting, setError, setSuccess.
  simpl. rewrite H.
  destruct (validate_fields_message _ _ _ H) as [field [_ ->]].
  rewrite falsy_is_required. reflexivity.
Qed.

Lemma submit_unconfigured env options data w :
  validateData options data = Normal None ->
  falsy (NEXT_PUBLIC_GOOGLE_SCRIPT_URL env) = true ->
  submitToSheet env options data w
    = (mkWorld (mkState false (Some configuration_error) false) (log w), Returned tt).
Proof.
  intros H Hu. unfold submitToSheet, bind, lift, setIsSubmitting, setError, setSuccess.
  simpl. rewrite H. simpl.
  destruct (NEXT_PUBLIC_GOOGLE_SCRIPT_URL env) as [s|]; [|reflexivity].
  simpl in Hu. rewrite Hu. reflexivity.
Qed.

Lemma submit_configured env options data w scriptUrl :
  validateData options data = Normal None ->
  NEXT_PUBLIC_GOOGLE_SCRIPT_URL env = Some scriptUrl ->
  scriptUrl <> "" ->
  submitToSheet env options data w
    = try_catch_finally (try_block env options data scriptUrl)
                        (catch_block options)
                        (setIsSubmitting false)
                        (submitting w).
Proof.
  intros H Hu Hne. unfold submitToSheet, bind, lift, setIsSubmitting, setError, setSuccess.
  simpl. rewrite H, Hu. simpl.
  destruct (String.eqb_spec scriptUrl ""); [contradiction | reflexivity].
Qed.

Lemma catch_block_run options err w :
  catch_block options err w
    = (mkWorld (mkState (isSubmitting (state w)) (Some (errorMessage err)) (success (state w)))
               (log w ++ catch_events options err),
       catch_result options err).
Proof.
  unfold catch_block, catch_events, catch_result, bind, emit, setError, lift, ret. simpl.
  destruct (onError options) as [callback|]; simpl; [|reflexivity].
  rewrite <- app_assoc. simpl.
  destruct (callback (as_Error err)) as [[]|e]; reflexivity.
Qed.

Lemma try_block_prepare env options data scriptUrl w :
  try_block env options data scriptUrl w
    = match prepare env options data scriptUrl with
      | Throw e => (w, Rejected e)
      | Normal url =>
          (emit (Fetch url) ;;
           await (fetch env url) ;;
           setSuccess true ;;
           match onSuccess options with
           | Some callback => emit (OnSuccess data) ;; lift (callback data)
           | None => ret tt
           end) w
      end.
Proof.
  unfold try_block, prepare, finalData, bind at 1 2 3, lift.
  destruct (URL_new env scriptUrl) as [url|e]; [|reflexivity].
  destruct (match transformData options with
            | Some transform => transform data
            | None => Normal data
            end) as [final|e]; [|reflexivity].
  destruct (forEach_append (Object_entries final) url) as [url'|e]; reflexivity.
Qed.

Section Paths.

Context (env : Env) (options : UseGoogleSheetsOptions) (data : record).
Context (w : World) (scriptUrl : string).
Hypothesis Hvalid : validateData options data = Normal None.
Hypothesis Hconfigured : NEXT_PUBLIC_GOOGLE_SCRIPT_URL env = Some scriptUrl.
Hypothesis Hnonempty : scriptUrl <> "".

Lemma submit_prepare_throws err :
  prepare env options data scriptUrl = Throw err ->
  submitToSheet env options data w
    = (mkWorld (mkState false (Some (errorMessage err)) false)
               (log w ++ catch_events options err),
       catch_result options err).
Proof.
  intros Hp. rewrite (submit_configured _ _ _ _ _ Hvalid Hconfigured Hnonempty).
  unfold try_catch_finally. rewrite try_block_prepare, Hp, catch_block_run.
  simpl. settle_catch.
Qed.

Lemma submit_fetch_rejected url err :
  prepare env options data scriptUrl = Normal url ->
  fetch env url = RejectedWith err ->
  submitToSheet env options data w
    = (mkWorld (mkState false (Some (errorMessage err)) false)
               (log w ++ Fetch url :: catch_events options err),
       catch_result options err).
Proof.
  intros Hp Hf. rewrite (submit_configured _ _ _ _ _ Hvalid Hconfigured Hnonempty).
  unfold try_catch_finally. rewrite try_block_prepare, Hp.
  unfold bind, emit, await. simpl. rewrite Hf, catch_block_run.
  simpl. rewrite <- app_assoc. simpl.
  settle_catch.
Qed.

Lemma submit_fetch_pending url :
  prepare env options data scriptUrl = Normal url ->
  fetch env url = Pending ->
  submitToSheet env options data w
    = (mkWorld (mkState true None false) (log w ++ [Fetch url]), Suspended).
Proof.
  intros Hp Hf. rewrite (submit_configured _ _ _ _ _ Hvalid Hconfigured Hnonempty).
  unfold try_catch_finally. rewrite try_block_prepare, Hp.
  unfold bind, emit, await. simpl. rewrite Hf. reflexivity.
Qed.

Lemma submit_succeeds url :
  prepare env options data scriptUrl = Normal url ->
  fetch env url = Fulfilled ->
  onSuccess_returns options data ->
  submitToSheet env options data w
    = (mkWorld (mkState false None true)
               (log w ++ Fetch url :: success_events options data),
       Returned tt).
Proof.
  intros Hp Hf Hcb. rewrite (submit_configured _ _ _ _ _ Hvalid Hconfigured Hnonempty).
  unfold try_catch_finally. rewrite try_block_prepare, Hp.
  unfold bind, emit, await, setSuccess, lift, ret, success_events. simpl. rewrite Hf.
  unfold onSuccess_returns in Hcb.
  destruct (onSuccess options) as [callback|]; simpl; [|reflexivity].
  rewrite (Hcb callback eq_refl). simpl. rewrite <- app_assoc. reflexivity.
Qed.

Lemma submit_onSuccess_throws url callback err :
  prepare env options data scriptUrl = Normal url ->
  fetch env url = Fulfilled ->
  onSuccess options = Some callback ->
  callback data = Throw err ->
  submitToSheet env options data w
    = (mkWorld (mkState false (Some (errorMessage err)) true)
               (log w ++ Fetch url :: OnSuccess data :: catch_events options err),
       catch_result options err).
Proof.
  intros Hp Hf Hcb Hthrow.
  rewrite (submit_configured _ _ _ _ _ Hvalid Hconfigured Hnonempty).
  unfold try_catch_finally. rewrite try_block_prepare, Hp.
  unfold bind, emit, await, setSuccess, lift. simpl. rewrite Hf, Hcb. simpl.
  rewrite Hthrow, catch_block_run. simpl. rewrite <- !app_assoc. simpl.
  settle_catch.
Qed.

End Paths.

(** Every call takes one of the paths. *)
Lemma submit_path_total env options data w :
  submit_path env options data w (submitToSheet env options data w).
Proof.
  destruct (validateData options data) as [[msg|]|e] eqn:Hv.
  - rewrite (submit_validation_error env _ _ w _ Hv).
    apply ValidationFailed; [assumption|].
    destruct (validate_fields_message _ _ _ Hv) as [field [_ ->]].
    intros H. pose proof (falsy_is_required field) as F. simpl in F.
    rewrite H in F. discriminate.
  - destruct (falsy (NEXT_PUBLIC_GOOGLE_SCRIPT_URL env)) eqn:Hf.
    + rewrite (submit_unconfigured _ _ _ w Hv Hf). apply ConfigMissing; assumption.
    + destruct (NEXT_PUBLIC_GOOGLE_SCRIPT_URL env) as [scriptUrl|] eqn:Hu;
        [|discriminate].
      assert (scriptUrl <> "") as Hne
        by (intros ->; discriminate).
      destruct (prepare env options data scriptUrl) as [url|err] eqn:Hp.
      * destruct (fetch env url) as [|err|] eqn:Hfetch.
        -- destruct (onSuccess options) as [callback|] eqn:Hcb.
           ++ destruct (callback data) as [[]|err] eqn:Hcall.
              ** rewrite (submit_succeeds _ _ _ w _ Hv Hu Hne url Hp Hfetch).
                 { eapply Success; eauto. intros c Hc. congruence. }
                 intros c Hc. congruence.
              ** rewrite (submit_onSuccess_throws _ _ _ w _ Hv Hu Hne url _ _ Hp Hfetch Hcb Hcall).
                 eapply CallbackFailed; eauto.
           ++ rewrite (submit_succeeds _ _ _ w _ Hv Hu Hne url Hp Hfetch).
              { eapply Success; eauto. intros c Hc. congruence. }
              intros c Hc. congruence.
        -- rewrite (submit_fetch_rejected _ _ _ w _ Hv Hu Hne url err Hp Hfetch).
           eapply NetworkFailed; eauto.
        -- rewrite (submit_fetch_pending _ _ _ w _ Hv Hu Hne url Hp Hfetch).
           eapply InFlight; eauto.
      * rewrite (submit_prepare_throws _ _ _ w _ Hv Hu Hne err Hp).
        eapply PrepareFailed; eauto.
  - rewrite (submit_validation_throws env _ _ w _ Hv). apply ValidationThrows. assumption.
Qed.

Lemma catch_result_settles options err : catch_result options err <> Suspended.
Proof.
  unfold catch_result. destruct (onError options) as [callback|]; [|discriminate].
  destruct (callback (as_Error err)); discriminate.
Qed.

Lemma catch_result_returns options err :
  onError_returns options -> catch_result options err = Returned tt.
Proof.
  unfold catch_result, onError_returns. intros H.
  destruct (onError options) as [callback|]; [|reflexivity].
  rewrite (H callback _ eq_refl). reflexivity.
Qed.

Lemma requests_catch_events options err : requests (catch_events options err) = [].
Proof. unfold catch_events. destruct (onError options); reflexivity. Qed.

Lemma requests_success_events options data : requests (success_events options data) = [].
Proof. unfold success_events. destruct (onSuccess options); reflexivity. Qed.

Lemma requests_Fetch url l : requests (Fetch url :: l) = url :: requests l.
Proof. reflexivity. Qed.

Lemma requests_OnSuccess data l : requests (OnSuccess data :: l) = requests l.
Proof. reflexivity. Qed.

(** Once the request URL is built, exactly one request is made with it,
    however the request and the callbacks end. *)
Lemma submit_requests env options data w scriptUrl url :
  validateData options data = Normal None ->
  NEXT_PUBLIC_GOOGLE_SCRIPT_URL env = Some scriptUrl ->
  scriptUrl <> "" ->
  prepare env options data scriptUrl = Normal url ->
  requests (log (fst (submitToSheet env options data w))) = (requests (log w) ++ [url])%list.
Proof.
  intros Hv Hu Hne Hp.
  destruct (submit_path_total env options data w); cbn [fst log];
    try congruence;
    try match goal with
        | H : falsy _ = true |- _ => rewrite Hu in H; simpl in H;
            destruct (String.eqb_spec scriptUrl ""); [contradiction | discriminate]
        end;
    match goal with
    | H : NEXT_PUBLIC_GOOGLE_SCRIPT_URL env = Some ?s |- _ =>
        assert (s = scriptUrl) by congruence; subst s
    end;
    try congruence;
    match goal with
    | H : prepare _ _ _ _ = Normal ?u |- _ => assert (u = url) by congruence; subst u
    end;
    rewrite requests_app, requests_Fetch, ?requests_OnSuccess,
      ?requests_catch_events, ?requests_success_events; reflexivity.
Qed.

(** ** Case analysis on a call *)

(** To prove a property of the outcome of a call, prove it of the outcome
    of each path. *)
Lemma submit_case_analysis env options data w (P : World * result unit -> Prop) :
  (forall e,
      validateData options data = Throw e ->
      P (submitting w, Rejected e)) ->
  (forall msg,
      validateData options data = Normal (Some msg) ->
      P (mkWorld (mkState false (Some msg) false) (log w), Returned tt)) ->
  (validateData options data = Normal None ->
   falsy (NEXT_PUBLIC_GOOGLE_SCRIPT_URL env) = true ->
   P (mkWorld (mkState false (Some configuration_error) false) (log w), Returned tt)) ->
  (forall scriptUrl err,
      validateData options data = Normal None ->
      NEXT_PUBLIC_GOOGLE_SCRIPT_URL env = Some scriptUrl -> scriptUrl <> "" ->
      prepare env options data scriptUrl = Throw err ->
      P (mkWorld (mkState false (Some (errorMessage err)) false)
                 (log w ++ catch_events options err),
         catch_result options err)) ->
  (forall scriptUrl url err,
      validateData options data = Normal None ->
      NEXT_PUBLIC_GOOGLE_SCRIPT_URL env = Some scriptUrl -> scriptUrl <> "" ->
      prepare env options data scriptUrl = Normal url ->
      fetch env url = RejectedWith err ->
      P (mkWorld (mkState false (Some (errorMessage err)) false)
                 (log w ++ Fetch url :: catch_events options err),
         catch_result options err)) ->
  (forall scriptUrl url,
      validateData options data = Normal None ->
      NEXT_PUBLIC_GOOGLE_SCRIPT_URL env = Some scriptUrl -> scriptUrl <> "" ->
      prepare env options data scriptUrl = Normal url ->
      fetch env url = Pending ->
      P (mkWorld (mkState true None false) (log w ++ [Fetch url]), Suspended)) ->
  (forall scriptUrl url,
      validateData options data = Normal None ->
      NEXT_PUBLIC_GOOGLE_SCRIPT_URL env = Some scriptUrl -> scriptUrl <> "" ->
      prepare env options data scriptUrl = Normal url ->
      fetch env url = Fulfilled ->
      onSuccess_returns options data ->
      P (mkWorld (mkState false None true)
                 (log w ++ Fetch url :: success_events options data),
         Returned tt)) ->
  (forall scriptUrl url callback err,
      validateData options data = Normal None ->
      NEXT_PUBLIC_GOOGLE_SCRIPT_URL env = Some scriptUrl -> scriptUrl <> "" ->
      prepare env options data scriptUrl = Normal url ->
      fetch env url = Fulfilled ->
      onSuccess options = Some callback ->
      callback data = Throw err ->
      P (mkWorld (mkState false (Some (errorMessage err)) true)
                 (log w ++ Fetch url :: OnSuccess data :: catch_events options err),
         catch_result options err)) ->
  P (submitToSheet env options data w).
Proof.
  intros Hthrows Hinvalid Hconfig Hprepare Hrejected Hpending Hsuccess Hcallback.
  destruct (validateData options data) as [[msg|]|e] eqn:Hv.
  - rewrite (submit_validation_error env _ _ w _ Hv). auto.
  - destruct (falsy (NEXT_PUBLIC_GOOGLE_SCRIPT_URL env)) eqn:Hf.
    + rewrite (submit_unconfigured _ _ _ w Hv Hf). auto.
    + destruct (NEXT_PUBLIC_GOOGLE_SCRIPT_URL env) as [scriptUrl|] eqn:Hu;
        [|discriminate].
      assert (scriptUrl <> "") as Hne by (intros ->; discriminate).
      destruct (prepare env options data scriptUrl) as [url|err] eqn:Hp.
      * destruct (fetch env url) as [|err|] eqn:Hfetch.
        -- destruct (onSuccess options) as [callback|] eqn:Hcb.
           ++ destruct (callback data) as [[]|err] eqn:Hcall.
              ** assert (onSuccess_returns options data) as Hret
                   by (intros c Hc; congruence).
                 rewrite (submit_succeeds _ _ _ w _ Hv Hu Hne url Hp Hfetch Hret).
                 eapply Hsuccess; eauto.
              ** rewrite (submit_onSuccess_throws _ _ _ w _ Hv Hu Hne url _ _
                            Hp Hfetch Hcb Hcall).
                 eapply Hcallback; eauto.
           ++ assert (onSuccess_returns options data) as Hret
                by (intros c Hc; congruence).
              rewrite (submit_succeeds _ _ _ w _ Hv Hu Hne url Hp Hfetch Hret).
              eapply Hsuccess; eauto.
        -- rewrite (submit_fetch_rejected _ _ _ w _ Hv Hu Hne url err Hp Hfetch).
           eapply Hrejected; eauto.
        -- rewrite (submit_fetch_pending _ _ _ w _ Hv Hu Hne url Hp Hfetch).
           eapply Hpending; eauto.
      * rewrite (submit_prepare_throws _ _ _ w _ Hv Hu Hne err Hp).
        eapply Hprepare; eauto.
  - rewrite (submit_validation_throws env _ _ w _ Hv). auto.
Qed.

Ltac by_submit_cases env options data w :=
  pattern (submitToSheet env options data w);
  apply submit_case_analysis; intros.

(* ===================================================================== *)
(** * Serialisation: claims C1 and C7 *)
(* ===================================================================== *)

(** C1, as the specification words it, fails on a falsy value that is
    neither [null] nor [undefined].  The record [{name: "A", age: 0}] passes
    validation (nothing is required), no transform is supplied and [endpoint]
    is configured; the one request carries [name=A&age=], whereas the string
    form of [0] is ["0"]. *)
Lemma C1_zero_is_sent_empty :
  validateData no_options visitor = Normal None
  /\ transformData no_options = None
  /\ requests (log (fst (submitToSheet online no_options visitor fresh)))
       = [mkURL endpoint [("name", "A"); ("age", "")]]
  /\ ~ Forall2 spec_parameter_of visitor [("name", "A"); ("age", "")].
Proof.
  repeat split; try reflexivity.
  intros H. inversion H as [|? ? ? ? _ Hrest]; subst.
  inversion Hrest as [|? ? ? ? [_ Hage] _]; subst.
  simpl in Hage. discriminate.
Qed.

(** C1, amended.  For a record that passes validation, with an endpoint
    configured that parses as a URL, no transform, and values whose string
    coercion returns: exactly one request is made; its query parameters are
    those of the endpoint URL itself followed by one parameter per entry of
    [Object.entries(record)], in that order, the value being the string form
    of a truthy value and the empty string for every falsy one.  The entries
    listed are the properties of the record, each once; when no key of the
    record is an array index, their order is the insertion order. *)
Theorem C1_query_parameters env options data w scriptUrl url0 :
  validateData options data = Normal None ->
  NEXT_PUBLIC_GOOGLE_SCRIPT_URL env = Some scriptUrl ->
  scriptUrl <> "" ->
  URL_new env scriptUrl = Normal url0 ->
  transformData options = None ->
  Forall (fun e => coerces (snd e) = true) data ->
  exists params,
    requests (log (fst (submitToSheet env options data w)))
      = (requests (log w)
           ++ [mkURL (location url0) (searchParams url0 ++ params)])%list
    /\ Forall2 parameter_of (Object_entries data) params
    /\ Permutation (Object_entries data) data
    /\ (Forall (fun e => is_array_index (fst e) = false) data ->
        Forall2 parameter_of data params).
Proof.
  intros Hv Hu Hne Hurl Ht Hc.
  assert (Forall (fun e => coerces (snd e) = true) (Object_entries data)) as Hc'.
  { rewrite Forall_forall in *. intros e He. apply Hc, In_Object_entries, He. }
  destruct (forEach_append_params _ url0 Hc') as [params [Hrun Hall]].
  exists params. split; [|split; [|split]].
  - apply (submit_requests env options data w scriptUrl); try assumption.
    unfold prepare, finalData. rewrite Hurl, Ht. exact Hrun.
  - exact Hall.
  - apply Object_entries_permutation.
  - intros Hidx. rewrite (Object_entries_insertion_order data Hidx) in Hall. exact Hall.
Qed.

Lemma C1_query_parameters_witness :
  validateData observed visitor = Normal None
  /\ URL_new online endpoint = Normal (mkURL endpoint [])
  /\ transformData observed = None
  /\ Forall (fun e => coerces (snd e) = true) visitor
  /\ exists params,
       requests (log (fst (submitToSheet online observed visitor fresh)))
         = [mkURL endpoint params]
       /\ Forall2 parameter_of (Object_entries visitor) params
       /\ Permutation (Object_entries visitor) visitor
       /\ (Forall (fun e => is_array_index (fst e) = false) visitor ->
           Forall2 parameter_of visitor params).
Proof.
  assert (Forall (fun e => coerces (snd e) = true) visitor) as Hc
    by (repeat constructor).
  split; [reflexivity | split; [reflexivity | split; [reflexivity | split; [exact Hc|]]]].
  apply (C1_query_parameters online observed visitor fresh endpoint (mkURL endpoint []));
    try reflexivity.
  - discriminate.
  - exact Hc.
Defined.

(** C7, as the specification words it, fails when the endpoint URL has a
    query of its own.  With the endpoint [...exec?sheet=2], the record
    [{sheet: "2", name: "A"}] and a transform that returns [{n: name}], the
    request carries [sheet=2&n=A]: the pair [sheet=2] of the original record
    appears in the query although the transform's output does not hold it. *)
Lemma C7_endpoint_query_keeps_dropped_pair :
  validateData renaming tabbed = Normal None
  /\ keep_name tabbed = Normal [("n", VString "A")]
  /\ requests (log (fst (submitToSheet with_query renaming tabbed fresh)))
     = [mkURL endpoint [("sheet", "2"); ("n", "A")]]
  /\ In ("sheet", VString "2") tabbed
  /\ In ("sheet", "2") (searchParams (mkURL endpoint [("sheet", "2"); ("n", "A")]))
  /\ ~ (exists v, In ("sheet", v) [("n", VString "A")]).
Proof.
  repeat split; try reflexivity.
  - left. reflexivity.
  - left. reflexivity.
  - intros [v [H | []]]. discriminate H.
Qed.

(** C7, amended.  For a record that passes validation, with an endpoint
    configured that parses as a URL: the mapping serialised is the output of
    the transform applied to the record when a transform is supplied, and the
    record itself otherwise.  When its values coerce to strings, the one
    request keeps the endpoint URL's own query in front and appends one
    parameter per entry of that mapping, in [Object.entries] order: every
    entry of the mapping yields a parameter, and every appended parameter
    stems from an entry of the mapping, so a pair of the original record is
    appended only if the transform's output holds it. *)
Theorem C7_transform_output_is_serialised env options data w scriptUrl url0 final :
  validateData options data = Normal None ->
  NEXT_PUBLIC_GOOGLE_SCRIPT_URL env = Some scriptUrl ->
  scriptUrl <> "" ->
  URL_new env scriptUrl = Normal url0 ->
  match transformData options with
  | Some transform => transform data
  | None => Normal data
  end = Normal final ->
  Forall (fun e => coerces (snd e) = true) final ->
  exists params,
    requests (log (fst (submitToSheet env options data w)))
      = (requests (log w)
           ++ [mkURL (location url0) (searchParams url0 ++ params)])%list
    /\ Forall2 parameter_of (Object_entries final) params
    /\ Permutation (Object_entries final) final
    /\ (forall e, In e final -> exists p, In p params /\ parameter_of e p)
    /\ (forall p, In p params ->
        exists v, In (fst p, v) final /\ parameter_of (fst p, v) p).
Proof.
  intros Hv Hu Hne Hurl Ht Hc.
  assert (Forall (fun e => coerces (snd e) = true) (Object_entries final)) as Hc'.
  { rewrite Forall_forall in *. intros e He. apply Hc, In_Object_entries, He. }
  destruct (forEach_append_params _ url0 Hc') as [params [Hrun Hall]].
  exists params. split; [|split; [|split; [|split]]].
  - apply (submit_requests env options data w scriptUrl); try assumption.
    unfold prepare, finalData. rewrite Hurl, Ht. exact Hrun.
  - exact Hall.
  - apply Object_entries_permutation.
  - intros e He. apply In_Object_entries in He.
    clear - Hall He. induction Hall as [|e' q es qs Heq _ IH]; [contradiction|].
    destruct He as [<- | He].
    + exists q. split; [left; reflexivity | assumption].
    + destruct (IH He) as [p [Hp Hep]]. exists p. split; [right|]; assumption.
  - intros p Hp.
    assert (exists e, In e (Object_entries final) /\ parameter_of e p) as [e [He Hpe]].
    { clear - Hall Hp. induction Hall as [|e q es qs Heq _ IH]; [contradiction|].
      destruct Hp as [<- | Hp].
      - exists e. split; [left; reflexivity | assumption].
      - destruct (IH Hp) as [e' [He' Hq]]. exists e'. split; [right|]; assumption. }
    destruct e as [k v]. exists v.
    assert (fst p = k) as -> by (destruct Hpe as [Hk _]; exact Hk).
    split; [apply In_Object_entries; exact He | exact Hpe].
Qed.

Lemma C7_transform_output_is_serialised_witness :
  validateData shortening patient = Normal None
  /\ URL_new online endpoint = Normal (mkURL endpoint [])
  /\ shorten patient = Normal [("n", VString "A"); ("a", VString "5")]
  /\ exists params,
       requests (log (fst (submitToSheet online shortening patient fresh)))
         = [mkURL endpoint params]
       /\ Forall2 parameter_of
            (Object_entries [("n", VString "A"); ("a", VString "5")]) params
       /\ Permutation (Object_entries [("n", VString "A"); ("a", VString "5")])
                      [("n", VString "A"); ("a", VString "5")]
       /\ (forall e, In e [("n", VString "A"); ("a", VString "5")] ->
           exists p, In p params /\ parameter_of e p)
       /\ (forall p, In p params ->
           exists v, In (fst p, v) [("n", VString "A"); ("a", VString "5")]
                     /\ parameter_of (fst p, v) p).
Proof.
  split; [reflexivity | split; [reflexivity | split; [reflexivity|]]].
  apply (C7_transform_output_is_serialised online shortening patient fresh endpoint
           (mkURL endpoint [])); try reflexivity.
  - discriminate.
  - repeat constructor.
Defined.

(* ===================================================================== *)
(** * Validation and configuration: claims C2 and C4 *)
(* ===================================================================== *)

(** C2, as the specification words it, fails on a required field that is
    present with a falsy value.  In [{name: "A", age: 0}] the required field
    [age] is present and its trimmed string form ["0"] is not empty, yet
    [submitToSheet] stops with ["age is required"]. *)
Lemma C2_zero_is_rejected :
  existsb (spec_missing visitor) (validateRequired require_age) = false
  /\ submitToSheet online require_age visitor fresh
       = (mkWorld (mkState false (Some "age is required") false) [], Returned tt).
Proof. split; reflexivity. Qed.

(** C2, amended.  For every record and every list of required fields whose
    values coerce to strings without throwing: [submitToSheet] fails
    validation exactly when some required field reads, as [data[field]]
    does (the record's own property, else the member inherited from
    [Object.prototype], else [undefined]), as a falsy value ([undefined],
    [null], [false], [0], [NaN], [0n], [""]) or as a value whose trimmed
    string form is empty.  On the first such field, in
    declared order, it leaves [error = "<field> is required"] and
    [isSubmitting = false], returns, and adds nothing to the log (no request,
    no callback); when there is none, validation passes. *)
Theorem C2_first_blank_field_is_reported env options data w :
  Forall (fun field => coerces (get data field) = true) (validateRequired options) ->
  match find (blank data) (validateRequired options) with
  | Some field =>
      submitToSheet env options data w
        = (mkWorld (mkState false (Some (field ++ " is required")) false) (log w),
           Returned tt)
  | None => validateData options data = Normal None
  end
  /\ (validateData options data = Normal None
      <-> forall field, In field (validateRequired options) -> blank data field = false).
Proof.
  intros Hc. pose proof (validate_fields_find data _ Hc) as Hv.
  fold (validateData options data) in Hv.
  destruct (find (blank data) (validateRequired options)) as [field|] eqn:Hfind;
    simpl in Hv; (split; [|split]).
  - apply submit_validation_error. exact Hv.
  - congruence.
  - intros Hall. apply find_some in Hfind. destruct Hfind as [Hin Hb].
    rewrite (Hall field Hin) in Hb. discriminate.
  - exact Hv.
  - intros _ field Hin. exact (find_none _ _ Hfind field Hin).
  - intros _. exact Hv.
Qed.

Lemma C2_first_blank_field_is_reported_witness :
  Forall (fun field => coerces (get [("name", VString ""); ("email", VString "a@b.com")] field) = true)
         (validateRequired require_contact)
  /\ submitToSheet online require_contact
       [("name", VString ""); ("email", VString "a@b.com")] fresh
     = (mkWorld (mkState false (Some "name is required") false) [], Returned tt).
Proof.
  split.
  - repeat constructor.
  - refine (proj1 (C2_first_blank_field_is_reported online require_contact
                     [("name", VString ""); ("email", VString "a@b.com")] fresh _)).
    repeat constructor.
Defined.





(* ===================================================================== *)
(** * [reset]: claim C9 *)
(* ===================================================================== *)

(** C9.  From every state, with any log behind it, [reset] leaves
    [error = null] and [success = false], keeps [isSubmitting] as it was,
    returns, and adds nothing to the log: no request, no callback.  The
    state it leaves is the idle one exactly when no submission is under
    way. *)
Theorem C9_reset_clears_error_and_success (w : World) :
  reset w
    = (mkWorld (mkState (isSubmitting (state w)) None false) (log w), Returned tt)
  /\ (state (fst (reset w)) = idle <-> isSubmitting (state w) = false).
Proof.
  unfold reset, bind, setError, setSuccess. cbn [state log isSubmitting error success fst].
  split; [reflexivity|].
  unfold idle. split.
  - intros H. injection H as H. exact H.
  - intros ->. reflexivity.
Qed.

(* ===================================================================== *)
(** * Outcomes: claims C5, C6 and C10 *)
(* ===================================================================== *)

Lemma URL_new_throws_prepare env options data scriptUrl err :
  URL_new env scriptUrl = Throw err -> prepare env options data scriptUrl = Throw err.
Proof. intros H. unfold prepare. rewrite H. reflexivity. Qed.

(** C5.  For a record that passes validation with an endpoint configured,
    when [new URL] throws [err], or the transform or the serialisation does,
    or the request is rejected with [err]: the final state has [error] equal to
    [err.message] for an instance of [Error] and to "Failed to submit data"
    otherwise, [success = false] and [isSubmitting = false]; [onError], when
    supplied, is called exactly once in this attempt, with [err] itself for
    an instance of [Error] and with a new [Error] carrying the fallback
    message otherwise. *)
Theorem C5_thrown_error_is_reported env options data w scriptUrl err :
  validateData options data = Normal None ->
  NEXT_PUBLIC_GOOGLE_SCRIPT_URL env = Some scriptUrl ->
  scriptUrl <> "" ->
  (URL_new env scriptUrl = Throw err
   \/ prepare env options data scriptUrl = Throw err
   \/ exists url,
        prepare env options data scriptUrl = Normal url
        /\ fetch env url = RejectedWith err) ->
  let w' := fst (submitToSheet env options data w) in
  state w'
    = mkState false
        (Some match err with
              | ErrorInstance e => message e
              | NonError => "Failed to submit data"
              end)
        false
  /\ onError_calls (log w')
     = (onError_calls (log w)
          ++ match onError options with
             | Some _ => [match err with
                          | ErrorInstance e => e
                          | NonError => new_Error "Failed to submit data"
                          end]
             | None => []
             end)%list
  /\ onSuccess_calls (log w') = onSuccess_calls (log w).
Proof.
  intros Hv Hu Hne Hthrow.
  assert (prepare env options data scriptUrl = Throw err
          \/ exists url,
               prepare env options data scriptUrl = Normal url
               /\ fetch env url = RejectedWith err) as [Hp | [url [Hp Hf]]].
  { destruct Hthrow as [H | [H | H]]; auto using URL_new_throws_prepare. }
  all: cbv zeta.
  - rewrite (submit_prepare_throws _ _ _ w _ Hv Hu Hne err Hp). cbn [fst state log].
    split; [destruct err; reflexivity|].
    rewrite onError_calls_app, onSuccess_calls_app. unfold catch_events.
    destruct (onError options); destruct err; simpl; rewrite ?app_nil_r; auto.
  - rewrite (submit_fetch_rejected _ _ _ w _ Hv Hu Hne url err Hp Hf). cbn [fst state log].
    split; [destruct err; reflexivity|].
    rewrite onError_calls_app, onSuccess_calls_app. unfold catch_events.
    destruct (onError options); destruct err; simpl; rewrite ?app_nil_r; auto.
Qed.

Lemma C5_thrown_error_is_reported_witness :
  (validateData observed contact = Normal None
   /\ fetch offline (mkURL endpoint [("name", "A"); ("email", "a@b.com")])
      = RejectedWith (ErrorInstance (new_Error "Failed to fetch"))
   /\ state (fst (submitToSheet offline observed contact fresh))
      = mkState false (Some "Failed to fetch") false
   /\ onError_calls (log (fst (submitToSheet offline observed contact fresh)))
      = [new_Error "Failed to fetch"])
  /\ (URL_new misconfigured "not a url" = Throw (ErrorInstance (new_Error "Invalid URL"))
      /\ state (fst (submitToSheet misconfigured observed contact fresh))
         = mkState false (Some "Invalid URL") false
      /\ onError_calls (log (fst (submitToSheet misconfigured observed contact fresh)))
         = [new_Error "Invalid URL"]).
Proof.
  split.
  - split; [reflexivity | split; [reflexivity|]].
    refine ((fun H => conj (proj1 H) (proj1 (proj2 H)))
              (C5_thrown_error_is_reported offline observed contact fresh endpoint
                 (ErrorInstance (new_Error "Failed to fetch")) eq_refl eq_refl _ _)).
    + discriminate.
    + right. right. exists (mkURL endpoint [("name", "A"); ("email", "a@b.com")]).
      split; reflexivity.
  - split; [reflexivity|].
    refine ((fun H => conj (proj1 H) (proj1 (proj2 H)))
              (C5_thrown_error_is_reported misconfigured observed contact fresh "not a url"
                 (ErrorInstance (new_Error "Invalid URL")) eq_refl eq_refl _ _)).
    + discriminate.
    + left. reflexivity.
Defined.

(** C6, as the specification words it, fails when [onSuccess] throws: the
    transform, the serialisation and the request all go through, and the
    attempt ends with [error = "boom"], not [null]. *)
Lemma C6_throwing_onSuccess_sets_error :
  validateData (onSuccess_throws "boom") contact = Normal None
  /\ prepare online (onSuccess_throws "boom") contact endpoint
     = Normal (mkURL endpoint [("name", "A"); ("email", "a@b.com")])
  /\ fetch online (mkURL endpoint [("name", "A"); ("email", "a@b.com")]) = Fulfilled
  /\ error (state (fst (submitToSheet online (onSuccess_throws "boom") contact fresh)))
     = Some "boom"
  /\ error (state (fst (submitToSheet online (onSuccess_throws "boom") contact fresh)))
     <> None.
Proof. repeat split; try reflexivity. discriminate. Qed.

(** C6, amended.  For a record that passes validation with an endpoint
    configured, when the request URL is built without a throw (steps 4 and
    5), the request is fulfilled (step 6) and [onSuccess], if supplied,
    returns: the attempt ends with [success = true], [error = null],
    [isSubmitting = false] and a fulfilled promise; the log gains the request
    and, when [onSuccess] is supplied, exactly one call of it, with the
    original record. *)
Theorem C6_success env options data w scriptUrl url :
  validateData options data = Normal None ->
  NEXT_PUBLIC_GOOGLE_SCRIPT_URL env = Some scriptUrl ->
  scriptUrl <> "" ->
  prepare env options data scriptUrl = Normal url ->
  fetch env url = Fulfilled ->
  onSuccess_returns options data ->
  submitToSheet env options data w
    = (mkWorld (mkState false None true)
               (log w ++ Fetch url :: match onSuccess options with
                                      | Some _ => [OnSuccess data]
                                      | None => []
                                      end),
       Returned tt).
Proof.
  intros Hv Hu Hne Hp Hf Hcb.
  exact (submit_succeeds _ _ _ w _ Hv Hu Hne url Hp Hf Hcb).
Qed.

Lemma C6_success_witness :
  validateData shortening patient = Normal None
  /\ onSuccess_returns (mkOptions (Some (fun _ => Normal tt)) None ["name"] (Some shorten)) patient
  /\ submitToSheet online (mkOptions (Some (fun _ => Normal tt)) None ["name"] (Some shorten))
       patient fresh
     = (mkWorld (mkState false None true)
                [Fetch (mkURL endpoint [("n", "A"); ("a", "5")]); OnSuccess patient],
        Returned tt).
Proof.
  assert (onSuccess_returns
            (mkOptions (Some (fun _ => Normal tt)) None ["name"] (Some shorten)) patient) as R.
  { intros callback H. inversion H. reflexivity. }
  split; [reflexivity | split; [exact R|]].
  apply (C6_success online
           (mkOptions (Some (fun _ => Normal tt)) None ["name"] (Some shorten))
           patient fresh endpoint (mkURL endpoint [("n", "A"); ("a", "5")]));
    try reflexivity.
  - discriminate.
  - exact R.
Defined.

(** C10, as stated, fails when the [Error] that [onSuccess] throws has an
    empty message: [error] becomes [""], which is falsy, so [success] is
    truthy and [error] is not. *)
Lemma C10_empty_message_is_falsy :
  validateData (onSuccess_throws "") contact = Normal None
  /\ fetch online (mkURL endpoint [("name", "A"); ("email", "a@b.com")]) = Fulfilled
  /\ state (fst (submitToSheet online (onSuccess_throws "") contact fresh))
     = mkState false (Some "") true
  /\ truthy (error (state (fst (submitToSheet online (onSuccess_throws "") contact fresh))))
     = false.
Proof. repeat split; reflexivity. Qed.

(** C10, amended.  When [onSuccess] throws [err] during a submit whose
    request was fulfilled, the [catch] block takes the throw: [error] is set
    to [err.message] (to "Failed to submit data" when [err] is not an
    instance of [Error]), the console and then [onError], if supplied,
    receive it, [success] stays [true] and the [finally] block still sets
    [isSubmitting] to [false]; the promise is rejected only if [onError]
    throws in turn.  So [success] is truthy, and [error] is truthy as well
    whenever that message is not empty. *)
Theorem C10_onSuccess_throw_is_caught env options data w scriptUrl url callback err :
  validateData options data = Normal None ->
  NEXT_PUBLIC_GOOGLE_SCRIPT_URL env = Some scriptUrl ->
  scriptUrl <> "" ->
  prepare env options data scriptUrl = Normal url ->
  fetch env url = Fulfilled ->
  onSuccess options = Some callback ->
  callback data = Throw err ->
  let w' := fst (submitToSheet env options data w) in
  state w' = mkState false (Some (errorMessage err)) true
  /\ log w'
     = (log w ++ [Fetch url; OnSuccess data; ConsoleError err]
          ++ match onError options with
             | Some _ => [OnError (as_Error err)]
             | None => []
             end)%list
  /\ (onError_returns options ->
      snd (submitToSheet env options data w) = Returned tt)
  /\ (errorMessage err <> "" ->
      truthy (error (state w')) = true /\ success (state w') = true).
Proof.
  intros Hv Hu Hne Hp Hf Hcb Hthrow. cbv zeta.
  rewrite (submit_onSuccess_throws _ _ _ w _ Hv Hu Hne url callback err Hp Hf Hcb Hthrow).
  cbn [fst snd state log error success].
  split; [reflexivity | split; [reflexivity | split]].
  - apply catch_result_returns.
  - intros Hmsg. split; [|reflexivity].
    unfold truthy. simpl. destruct (String.eqb_spec (errorMessage err) ""); [contradiction|].
    reflexivity.
Qed.

Lemma C10_onSuccess_throw_is_caught_witness :
  validateData (onSuccess_throws "boom") contact = Normal None
  /\ state (fst (submitToSheet online (onSuccess_throws "boom") contact fresh))
     = mkState false (Some "boom") true
  /\ log (fst (submitToSheet online (onSuccess_throws "boom") contact fresh))
     = [Fetch (mkURL endpoint [("name", "A"); ("email", "a@b.com")]);
        OnSuccess contact;
        ConsoleError (ErrorInstance (new_Error "boom"));
        OnError (new_Error "boom")].
Proof.
  split; [reflexivity|].
  pose proof (C10_onSuccess_throw_is_caught online (onSuccess_throws "boom") contact fresh
                endpoint (mkURL endpoint [("name", "A"); ("email", "a@b.com")])
                (fun _ => Throw (ErrorInstance (new_Error "boom")))
                (ErrorInstance (new_Error "boom"))
                eq_refl eq_refl ltac:(discriminate) eq_refl eq_refl eq_refl eq_refl) as H.
  cbv zeta in H. destruct H as [Hs [Hl _]]. split; [exact Hs | exact Hl].
Defined.

(* ===================================================================== *)
(** * Invariants of the status cells: claims C3 and C8 *)
(* ===================================================================== *)

(** C3, as the specification words it, fails when [onSuccess] throws after
    a fulfilled request: the attempt completes with [success = true] and
    [error = "boom"], both truthy. *)
Lemma C3_error_and_success_both_truthy :
  submitToSheet online (onSuccess_throws "boom") contact fresh
    = (mkWorld (mkState false (Some "boom") true)
               [Fetch (mkURL endpoint [("name", "A"); ("email", "a@b.com")]);
                OnSuccess contact;
                ConsoleError (ErrorInstance (new_Error "boom"));
                OnError (new_Error "boom")],
       Returned tt)
  /\ truthy (Some "boom") = true.
Proof. split; reflexivity. Qed.

(** C3, amended.  In the idle state, and in the state of a call waiting for
    its request to settle, [error] is [null] and [success] is [false].  After
    a completed attempt in which validation did not throw and [onSuccess], if
    the attempt invoked it, returned, [isSubmitting] is [false] and exactly
    one of the two holds: [success] is [true] and [error] is [null], or
    [success] is [false] and [error] is a string; that string is truthy
    unless it is the empty message of a thrown [Error]. *)
Theorem C3_error_xor_success env options data w :
  let w' := fst (submitToSheet env options data w) in
  let r := snd (submitToSheet env options data w) in
  (error idle = None /\ success idle = false)
  /\ (r = Suspended ->
      state w' = mkState true None false)
  /\ (r <> Suspended ->
      (exists v, validateData options data = Normal v) ->
      (forall callback,
          onSuccess options = Some callback ->
          In (OnSuccess data) (log (fst (attempt env options data))) ->
          callback data = Normal tt) ->
      isSubmitting (state w') = false
      /\ xorb (is_set (error (state w'))) (success (state w')) = true
      /\ (error (state w') <> Some "" ->
          xorb (truthy (error (state w'))) (success (state w')) = true)).
Proof.
  cbv zeta. split; [split; reflexivity|].
  by_submit_cases env options data w;
    cbn [fst snd state error success isSubmitting];
    (split; [intros Hr | intros Hr [v Hv] Hcb]);
    try discriminate; try congruence; try reflexivity;
    try (exfalso; eapply catch_result_settles; eassumption);
    try match goal with
        | Hs : onSuccess options = Some ?c, Ht : ?c data = Throw _,
          Hp : prepare _ _ _ ?s = Normal ?u, Hn : ?s <> "" |- _ =>
            exfalso;
            assert (In (OnSuccess data) (log (fst (attempt env options data)))) as Hin
              by (unfold attempt;
                  erewrite submit_onSuccess_throws by eassumption;
                  cbn [fst log]; simpl; auto);
            rewrite (Hcb c Hs Hin) in Ht; discriminate
        end;
    (split; [reflexivity | split; [reflexivity|]]);
    try reflexivity;
    intros Hne; unfold truthy; simpl;
    match goal with
    | |- context [String.eqb ?m ""] =>
        destruct (String.eqb_spec m ""); [congruence | reflexivity]
    end.
Qed.

Lemma C3_error_xor_success_witness :
  snd (submitToSheet offline (onSuccess_throws "boom") contact fresh) <> Suspended
  /\ (exists v, validateData (onSuccess_throws "boom") contact = Normal v)
  /\ ~ In (OnSuccess contact)
         (log (fst (attempt offline (onSuccess_throws "boom") contact)))
  /\ state (fst (submitToSheet offline (onSuccess_throws "boom") contact fresh))
     = mkState false (Some "Failed to fetch") false
  /\ xorb (truthy (error (state (fst (submitToSheet offline (onSuccess_throws "boom")
                                       contact fresh)))))
          (success (state (fst (submitToSheet offline (onSuccess_throws "boom")
                                  contact fresh)))) = true.
Proof.
  assert (snd (submitToSheet offline (onSuccess_throws "boom") contact fresh) <> Suspended)
    as Hr by discriminate.
  assert (exists v, validateData (onSuccess_throws "boom") contact = Normal v) as Hv
    by (exists None; reflexivity).
  assert (~ In (OnSuccess contact)
              (log (fst (attempt offline (onSuccess_throws "boom") contact)))) as Hnot.
  { simpl. intros [H | [H | [H | []]]]; discriminate H. }
  split; [exact Hr | split; [exact Hv | split; [exact Hnot | split; [reflexivity|]]]].
  refine (proj2 (proj2 (proj2 (proj2
            (C3_error_xor_success offline (onSuccess_throws "boom") contact fresh))
            Hr Hv _)) _).
  - intros callback _ Hin. destruct (Hnot Hin).
  - discriminate.
Defined.

(** C8, as the specification words it, fails when [onError] throws: the
    request is rejected, the [catch] block calls [onError], and what
    [onError] throws rejects the promise of [submitToSheet]. *)
Lemma C8_throwing_onError_rejects :
  submitToSheet offline onError_throws contact fresh
    = (mkWorld (mkState false (Some "Failed to fetch") false)
               [Fetch (mkURL endpoint [("name", "A"); ("email", "a@b.com")]);
                ConsoleError (ErrorInstance (new_Error "Failed to fetch"));
                OnError (new_Error "Failed to fetch")],
       Rejected NonError).
Proof. reflexivity. Qed.

(** C8, amended.  For every record and configuration in which validation
    does not throw (no [String(...)] of a required field's value throws) and
    [onError], if supplied, returns: the promise of [submitToSheet] is never
    rejected.  It is fulfilled on every completed attempt, the validation,
    configuration and transport errors and a throw of [onSuccess] having been
    recorded in [error]; it stays pending only while the request does. *)
Theorem C8_promise_not_rejected env options data w :
  (exists v, validateData options data = Normal v) ->
  onError_returns options ->
  (forall e, snd (submitToSheet env options data w) <> Rejected e)
  /\ (snd (submitToSheet env options data w) = Returned tt
      \/ snd (submitToSheet env options data w) = Suspended
         /\ exists url, In url (requests (log (fst (submitToSheet env options data w))))
                        /\ fetch env url = Pending).
Proof.
  intros [v Hv] Hcb.
  assert (snd (submitToSheet env options data w) = Returned tt
          \/ snd (submitToSheet env options data w) = Suspended
             /\ exists url, In url (requests (log (fst (submitToSheet env options data w))))
                            /\ fetch env url = Pending) as H.
  { destruct (submit_path_total env options data w); cbn [fst snd log];
      rewrite ?(catch_result_returns _ _ Hcb); auto; try congruence.
    right. split; [reflexivity|].
    exists url. split; [|assumption].
    rewrite requests_app. apply in_or_app. right. left. reflexivity. }
  split; [|exact H].
  intros e He. destruct H as [H | [H _]]; congruence.
Qed.

Lemma C8_promise_not_rejected_witness :
  (exists v, validateData observed contact = Normal v)
  /\ onError_returns observed
  /\ onError_calls (log (fst (submitToSheet offline observed contact fresh)))
     = [new_Error "Failed to fetch"]
  /\ (forall e, snd (submitToSheet offline observed contact fresh) <> Rejected e).
Proof.
  assert (exists v, validateData observed contact = Normal v) as Hv
    by (exists None; reflexivity).
  assert (onError_returns observed) as Hcb
    by (intros callback e H; inversion H; reflexivity).
  split; [exact Hv | split; [exact Hcb | split; [reflexivity|]]].
  exact (proj1 (C8_promise_not_rejected offline observed contact fresh Hv Hcb)).
Defined.

(* ===================================================================== *)
(** * Worked examples *)
(* ===================================================================== *)

(** The scenarios of the specification. *)

Example blank_name_is_reported :
  submitToSheet online require_contact
    [("name", VString ""); ("email", VString "a@b.com")] fresh
  = (mkWorld (mkState false (Some "name is required") false) [], Returned tt).
Proof. reflexivity. Qed.

Example endpoint_not_configured :
  submitToSheet unconfigured require_contact contact fresh
  = (mkWorld (mkState false (Some configuration_error) false) [], Returned tt).
Proof. reflexivity. Qed.

Example transformed_query :
  submitToSheet online shortening patient fresh
  = (mkWorld (mkState false None true)
             [Fetch (mkURL endpoint [("n", "A"); ("a", "5")])],
     Returned tt).
Proof. reflexivity. Qed.

(** The sample records name each key once. *)
Example samples_well_formed :
  wf_record visitor /\ wf_record contact /\ wf_record patient.
Proof.
  unfold wf_record. repeat split; simpl;
    repeat (constructor; [simpl; intuition discriminate|]); constructor.
Qed.

(** A white-space string is truthy but blank. *)
Example spaces_are_blank :
  blank [("name", VString "   ")] "name" = true
  /\ ToBoolean (VString "   ") = true.
Proof. split; reflexivity. Qed.

(** So is the empty array, whose string form is empty. *)
Example empty_array_is_blank :
  blank [("tags", VObject (Normal ""))] "tags" = true.
Proof. reflexivity. Qed.

(** [Object.entries] puts array-index keys first: [{b: 1, 2: 2, a: 3, 1: 4}]
    is sent as [1=4&2=2&b=1&a=3]. *)
Example array_index_keys_come_first :
  requests (log (fst (submitToSheet online no_options
      [("b", VNumber (Finite 1 eq_refl)); ("2", VNumber (Finite 2 eq_refl));
       ("a", VNumber (Finite 3 eq_refl)); ("1", VNumber (Finite 4 eq_refl))] fresh)))
  = [mkURL endpoint [("1", "4"); ("2", "2"); ("b", "1"); ("a", "3")]].
Proof. reflexivity. Qed.

(** The parameters are appended to those the endpoint URL already has. *)
Example endpoint_query_is_kept :
  requests (log (fst (submitToSheet with_query no_options contact fresh)))
  = [mkURL endpoint [("sheet", "2"); ("name", "A"); ("email", "a@b.com")]].
Proof. reflexivity. Qed.

(** Validation runs outside the [try] block: when [String(...)] of a
    required value throws, the promise is rejected and the state is left as
    the top of [submitToSheet] set it. *)
Example throwing_coercion_escapes :
  submitToSheet online (mkOptions None None ["extra"] None)
    [("extra", bare_object)] fresh
  = (mkWorld (mkState true None false) [],
     Rejected (ErrorInstance (new_Error "Cannot convert object to primitive value"))).
Proof. reflexivity. Qed.

(** Inside the [try] block the same throw is caught and reported. *)
Example throwing_coercion_is_caught :
  submitToSheet online no_options [("extra", bare_object)] fresh
  = (mkWorld
       (mkState false (Some "Cannot convert object to primitive value") false)
       [ConsoleError (ErrorInstance (new_Error "Cannot convert object to primitive value"))],
     Returned tt).
Proof. reflexivity. Qed.

(** A request that never settles leaves the hook submitting. *)
Example pending_request :
  submitToSheet (mkEnv (Some endpoint) (URL_new online) (fun _ => Pending))
    observed contact fresh
  = (mkWorld (mkState true None false)
             [Fetch (mkURL endpoint [("name", "A"); ("email", "a@b.com")])],
     Suspended).
Proof. reflexivity. Qed.

(* ===================================================================== *)
(** * Further properties of [submitToSheet] and [reset] *)
(* ===================================================================== *)

(** ** A call does not look at the state it starts from *)

(** From whatever world it starts, a call ends in the state, and with the
    promise, of the same call on a fresh hook, and it adds to the log the
    events of that call. *)
Lemma submit_from_fresh env options data w :
  submitToSheet env options data w
    = (mkWorld (state (fst (attempt env options data)))
               (log w ++ log (fst (attempt env options data))),
       snd (attempt env options data)).
Proof.
  unfold attempt.
  destruct (validateData options data) as [[msg|]|e] eqn:Hv.
  - rewrite !(submit_validation_error env _ _ _ _ Hv). simpl.
    rewrite app_nil_r. reflexivity.
  - destruct (falsy (NEXT_PUBLIC_GOOGLE_SCRIPT_URL env)) eqn:Hf.
    + rewrite !(submit_unconfigured _ _ _ _ Hv Hf). simpl.
      rewrite app_nil_r. reflexivity.
    + destruct (NEXT_PUBLIC_GOOGLE_SCRIPT_URL env) as [scriptUrl|] eqn:Hu;
        [|discriminate].
      assert (scriptUrl <> "") as Hne by (intros ->; discriminate).
      destruct (prepare env options data scriptUrl) as [url|err] eqn:Hp.
      * destruct (fetch env url) as [|err|] eqn:Hfetch.
        -- destruct (onSuccess options) as [callback|] eqn:Hcb.
           ++ destruct (callback data) as [[]|err] eqn:Hcall.
              ** assert (onSuccess_returns options data) as Hret
                   by (intros c Hc; congruence).
                 rewrite !(submit_succeeds _ _ _ _ _ Hv Hu Hne url Hp Hfetch Hret).
                 reflexivity.
              ** rewrite !(submit_onSuccess_throws _ _ _ _ _ Hv Hu Hne url _ _
                             Hp Hfetch Hcb Hcall).
                 reflexivity.
           ++ assert (onSuccess_returns options data) as Hret
                by (intros c Hc; congruence).
              rewrite !(submit_succeeds _ _ _ _ _ Hv Hu Hne url Hp Hfetch Hret).
              reflexivity.
        -- rewrite !(submit_fetch_rejected _ _ _ _ _ Hv Hu Hne url err Hp Hfetch).
           reflexivity.
        -- rewrite !(submit_fetch_pending _ _ _ _ _ Hv Hu Hne url Hp Hfetch).
           reflexivity.
      * rewrite !(submit_prepare_throws _ _ _ _ _ Hv Hu Hne err Hp). reflexivity.
  - rewrite !(submit_validation_throws env _ _ _ _ Hv). simpl.
    rewrite app_nil_r. reflexivity.
Qed.

(** X1.  [submitToSheet] overwrites the three cells before it reads
    anything, so nothing carries over from an earlier submission: started
    from any two worlds, the same call ends in the same state, settles its
    promise the same way, and adds the same events to either log. *)
Theorem submit_ignores_prior_state env options data w1 w2 :
  state (fst (submitToSheet env options data w1))
    = state (fst (submitToSheet env options data w2))
  /\ snd (submitToSheet env options data w1)
     = snd (submitToSheet env options data w2)
  /\ exists events,
       log (fst (submitToSheet env options data w1)) = (log w1 ++ events)%list
       /\ log (fst (submitToSheet env options data w2)) = (log w2 ++ events)%list.
Proof.
  rewrite (submit_from_fresh env options data w1), (submit_from_fresh env options data w2).
  cbn [fst snd state log]. repeat split.
  exists (log (fst (attempt env options data))). split; reflexivity.
Qed.

(** ** What validation accepts *)

Lemma dropWhile_nil {A} (p : A -> bool) (l : list A) :
  dropWhile p l = [] <-> forallb p l = true.
Proof.
  induction l as [|x l IH]; simpl; [tauto|].
  destruct (p x); simpl; [exact IH | split; discriminate].
Qed.

Lemma dropWhile_stops {A} (p : A -> bool) (l : list A) :
  forallb p (dropWhile p l) = true -> dropWhile p l = [].
Proof.
  induction l as [|x l IH]; simpl; [reflexivity|].
  destruct (p x) eqn:Hx; [exact IH|].
  simpl. rewrite Hx. discriminate.
Qed.

Lemma forallb_rev {A} (p : A -> bool) (l : list A) :
  forallb p (rev l) = forallb p l.
Proof.
  induction l as [|x l IH]; simpl; [reflexivity|].
  rewrite forallb_app, IH. simpl. rewrite andb_true_r. apply andb_comm.
Qed.

(** Stripping a list at both ends leaves nothing exactly when every element
    is stripped. *)
Lemma strip_nil {A} (p : A -> bool) (l : list A) :
  rev (dropWhile p (rev (dropWhile p l))) = [] <-> forallb p l = true.
Proof.
  split.
  - intros H. apply (f_equal (@rev A)) in H. rewrite rev_involutive in H. simpl in H.
    apply dropWhile_nil in H. rewrite forallb_rev in H.
    apply dropWhile_nil. apply dropWhile_stops. exact H.
  - intros H. apply dropWhile_nil in H. rewrite H. reflexivity.
Qed.

Lemma characters_not_empty : forall n s,
  String.length s <= n -> Forall (fun ch => ch <> "") (characters s).
Proof.
  induction n as [|n IH]; intros s Hlen.
  - destruct s; [constructor | simpl in Hlen; lia].
  - destruct s as [|c s1]; [constructor|]. simpl in Hlen. simpl.
    destruct (N_of_ascii c <? 192)%N.
    { constructor; [discriminate | apply IH; lia]. }
    destruct s1 as [|c1 s2]; [repeat constructor; discriminate|]. simpl in Hlen.
    destruct (N_of_ascii c <? 224)%N.
    { constructor; [discriminate | apply IH; lia]. }
    destruct s2 as [|c2 s3].
    { constructor; [discriminate | apply IH; simpl; lia]. }
    simpl in Hlen.
    destruct (N_of_ascii c <? 240)%N.
    { constructor; [discriminate | apply IH; lia]. }
    destruct s3 as [|c3 s4].
    { constructor; [discriminate | apply IH; simpl; lia]. }
    simpl in Hlen. constructor; [discriminate | apply IH; lia].
Qed.

Lemma dropWhile_Forall {A} (P : A -> Prop) (p : A -> bool) (l : list A) :
  Forall P l -> Forall P (dropWhile p l).
Proof.
  induction 1 as [|x l Hx Hl IH]; simpl; [constructor|].
  destruct (p x); [exact IH | constructor; assumption].
Qed.

Lemma join_nil (l : list string) :
  Forall (fun ch => ch <> "") l -> join l = "" -> l = [].
Proof.
  intros H. destruct H as [|ch l Hch _]; [reflexivity|].
  simpl. destruct ch; [contradiction | discriminate].
Qed.

(** [s.trim() === ""] holds exactly of the strings made of white space. *)
Lemma trim_empty (s : string) : String.eqb (trim s) "" = all_white_space s.
Proof.
  unfold trim, all_white_space.
  destruct (forallb is_white_space (characters s)) eqn:Hs.
  - apply strip_nil in Hs. rewrite Hs. reflexivity.
  - destruct (String.eqb_spec
                (join (rev (dropWhile is_white_space
                              (rev (dropWhile is_white_space (characters s)))))) "")
      as [E|]; [|reflexivity].
    apply join_nil in E.
    + apply strip_nil in E. congruence.
    + apply Forall_rev, dropWhile_Forall, Forall_rev, dropWhile_Forall.
      apply (characters_not_empty (String.length s)). lia.
Qed.

(** A string that starts with a visible one-byte character has ink. *)
Lemma ink_first (c : ascii) (s : string) :
  (N_of_ascii c <? 192)%N = true ->
  is_white_space (String c "") = false ->
  all_white_space (String c s) = false.
Proof.
  intros Hw Hc. unfold all_white_space. cbn [characters]. cbv zeta.
  rewrite Hw. cbn [forallb]. rewrite Hc. reflexivity.
Qed.

Lemma decimal_has_ink (z : Z) : all_white_space (decimal z) = false.
Proof.
  unfold decimal. destruct z as [|p|p]; cbn [Z.to_int NilZero.string_of_int].
  - reflexivity.
  - unfold NilZero.string_of_uint.
    destruct (Pos.to_uint p); cbn [NilEmpty.string_of_uint];
      try reflexivity; apply ink_first; reflexivity.
  - apply ink_first; reflexivity.
Qed.

Lemma Symbol_has_ink (d : string) : all_white_space ("Symbol(" ++ d ++ ")") = false.
Proof. apply ink_first; reflexivity. Qed.

(** On a truthy value whose string form is [s], the second half of the
    validation test fails exactly when the value is accepted. *)
Lemma trimmed_form_accepted (v : value) (s : string) :
  ToBoolean v = true ->
  String_ v = Normal s ->
  String.eqb (trim s) "" = negb (accepted v).
Proof.
  intros Hb Hs. rewrite trim_empty.
  destruct v as [| |[|]|[|[|]|z Hz|x Hx]|z|t|d|[t|e]]; cbn [ToBoolean String_ accepted] in *;
    try discriminate; inversion Hs; subst; cbn [Number_toString];
    rewrite ?decimal_has_ink, ?Symbol_has_ink;
    try (rewrite Hb; reflexivity);
    try (rewrite Hx; reflexivity);
    rewrite ?negb_involutive; reflexivity.
Qed.

Lemma falsy_not_accepted (v : value) : ToBoolean v = false -> accepted v = false.
Proof.
  destruct v as [| |[|]|[|[|]|z Hz|x Hx]|z|t|d|[t|e]]; cbn [ToBoolean accepted];
    try reflexivity; try discriminate; try (intros H; exact H).
  intros H. apply negb_false_iff in H. apply String.eqb_eq in H. subst. reflexivity.
Qed.

Lemma validate_fields_accepts (data : record) fields :
  validate_fields fields data = Normal None ->
  forall field, In field fields -> accepted (get data field) = true.
Proof.
  induction fields as [|f fields IH]; simpl; [contradiction|].
  destruct (ToBoolean (get data f)) eqn:Hb; simpl; [|discriminate].
  destruct (String_ (get data f)) as [s|] eqn:Hs; [|discriminate].
  rewrite (trimmed_form_accepted _ _ Hb Hs).
  destruct (accepted (get data f)) eqn:Ha; simpl; [|discriminate].
  intros H field [<- | Hin]; [exact Ha | exact (IH H field Hin)].
Qed.

Lemma validate_fields_rejects (data : record) fields msg :
  validate_fields fields data = Normal (Some msg) ->
  exists field,
    In field fields /\ msg = field ++ " is required"
    /\ accepted (get data field) = false.
Proof.
  induction fields as [|f fields IH]; simpl; [discriminate|].
  destruct (ToBoolean (get data f)) eqn:Hb; simpl.
  - destruct (String_ (get data f)) as [s|] eqn:Hs; [|discriminate].
    rewrite (trimmed_form_accepted _ _ Hb Hs).
    destruct (accepted (get data f)) eqn:Ha; simpl.
    + intros H. destruct (IH H) as [field [Hin [Hm Hf]]]. eauto.
    + intros H. inversion H. eauto.
  - intros H. inversion H. exists f. repeat split; auto using falsy_not_accepted.
Qed.

(** X2.  Validation passes exactly when every required field reads, as
    [data[field]] does (own property, else inherited member, else
    [undefined]), as an accepted value: a string (or an object, by its string form) holding a
    character that is not white space, [true], a number other than [0] and
    [NaN], a bigint other than [0n], or a symbol.  When it fails, the message
    names a required field whose value is not accepted.  (The values of the
    required fields are taken to coerce to strings without throwing.) *)
Theorem validation_accepts_by_kind options data :
  Forall (fun field => coerces (get data field) = true) (validateRequired options) ->
  (validateData options data = Normal None
   <-> forall field, In field (validateRequired options) ->
                     accepted (get data field) = true)
  /\ (forall msg, validateData options data = Normal (Some msg) ->
      exists field,
        In field (validateRequired options) /\ msg = field ++ " is required"
        /\ accepted (get data field) = false).
Proof.
  intros Hc. split; [split|].
  - apply validate_fields_accepts.
  - intros Hall. pose proof (validate_fields_find data _ Hc) as Hv.
    fold (validateData options data) in Hv.
    destruct (find (blank data) (validateRequired options)) as [field|] eqn:Hfind;
      [|exact Hv].
    simpl in Hv. destruct (validate_fields_rejects _ _ _ Hv) as [f [Hin [_ Hf]]].
    rewrite (Hall f Hin) in Hf. discriminate.
  - apply validate_fields_rejects.
Qed.

Lemma validation_accepts_by_kind_witness :
  Forall (fun field => coerces (get visitor field) = true) ["name"; "age"]
  /\ accepted (get visitor "age") = false
  /\ validateData (mkOptions None None ["name"; "age"] None) visitor
     <> Normal None.
Proof.
  assert (Forall (fun field => coerces (get visitor field) = true) ["name"; "age"]) as Hc
    by (repeat constructor).
  split; [exact Hc | split; [reflexivity|]].
  intros H.
  pose proof (proj1 (proj1 (validation_accepts_by_kind
                              (mkOptions None None ["name"; "age"] None) visitor Hc))
                    H "age" (or_intror (or_introl eq_refl))) as Ha.
  discriminate Ha.
Defined.

(** X3.  Validation reads the required fields only: two records that agree
    on them get the same verdict, whatever else they hold. *)
Theorem validation_reads_required_fields_only options data1 data2 :
  (forall field, In field (validateRequired options) ->
                 get data1 field = get data2 field) ->
  validateData options data1 = validateData options data2.
Proof.
  unfold validateData. induction (validateRequired options) as [|f fields IH];
    intros Hagree; simpl; [reflexivity|].
  rewrite (Hagree f (or_introl eq_refl)).
  rewrite IH by (intros field Hin; apply Hagree; right; exact Hin).
  reflexivity.
Qed.

Lemma validation_reads_required_fields_only_witness :
  validateData require_contact contact
    = validateData require_contact
        (("note", bare_object) :: contact ++ [("age", VNumber (Finite 0 eq_refl))]).
Proof.
  apply (validation_reads_required_fields_only require_contact contact).
  intros field [<- | [<- | []]]; reflexivity.
Defined.

Lemma configured_not_falsy env scriptUrl :
  NEXT_PUBLIC_GOOGLE_SCRIPT_URL env = Some scriptUrl -> scriptUrl <> "" ->
  falsy (NEXT_PUBLIC_GOOGLE_SCRIPT_URL env) = false.
Proof.
  intros -> Hne. simpl. destruct (String.eqb_spec scriptUrl ""); [contradiction | reflexivity].
Qed.

Lemma onError_calls_catch_events options err :
  onError_calls (catch_events options err)
    = match onError options with Some _ => [as_Error err] | None => [] end.
Proof. unfold catch_events. destruct (onError options); reflexivity. Qed.

Lemma onSuccess_calls_catch_events options err :
  onSuccess_calls (catch_events options err) = [].
Proof. unfold catch_events. destruct (onError options); reflexivity. Qed.

Lemma onError_calls_success_events options data :
  onError_calls (success_events options data) = [].
Proof. unfold success_events. destruct (onSuccess options); reflexivity. Qed.

Lemma message_as_Error err : message (as_Error err) = errorMessage err.
Proof. destruct err; reflexivity. Qed.

(** ** Requests *)

(** X4.  A call makes at most one request, and makes one only when the
    endpoint is configured and every required field holds an accepted
    value: a record that fails validation is never sent. *)
Theorem request_only_for_valid_record env options data w :
  exists sent,
    requests (log (fst (submitToSheet env options data w)))
      = (requests (log w) ++ sent)%list
    /\ length sent <= 1
    /\ (sent <> [] ->
        falsy (NEXT_PUBLIC_GOOGLE_SCRIPT_URL env) = false
        /\ forall field, In field (validateRequired options) ->
                         accepted (get data field) = true).
Proof.
  by_submit_cases env options data w; cbn [fst log];
    try (exists []; rewrite app_nil_r; repeat split; simpl; auto; congruence);
    try (exists []; rewrite requests_app, requests_catch_events;
         repeat split; simpl; auto; congruence);
    match goal with
    | Hp : prepare _ _ _ _ = Normal ?url |- _ => exists [url]
    end;
    rewrite requests_app, requests_Fetch, ?requests_OnSuccess,
      ?requests_catch_events, ?requests_success_events;
    (split; [reflexivity | split; [simpl; lia | intros _]]);
    (split; [eapply configured_not_falsy; eassumption
            | apply validate_fields_accepts; assumption]).
Qed.

(** ** The status cells after a call *)

(** X5.  [isSubmitting] is left [true] in two cases only: the request has
    not settled, or validation itself threw (the promise is then rejected
    and nothing clears the flag).  Every other call ends with it [false],
    also when a callback throws. *)
Theorem isSubmitting_left_true env options data w :
  isSubmitting (state (fst (submitToSheet env options data w))) = true
  <-> snd (submitToSheet env options data w) = Suspended
      \/ exists e, validateData options data = Throw e.
Proof.
  by_submit_cases env options data w; cbn [fst snd state isSubmitting];
    (split; [intros Hs; try discriminate; eauto
            | intros [Hs | [e' He']]; try reflexivity; try congruence;
              exfalso; eapply catch_result_settles; eassumption]).
Qed.

(** X6.  [success] is [true] after a call exactly when that call made a
    request and the request was fulfilled; what [onSuccess] then does, even
    a throw, no longer changes it. *)
Theorem success_means_request_fulfilled env options data w :
  success (state (fst (submitToSheet env options data w))) = true
  <-> exists url,
        In url (requests (log (fst (attempt env options data))))
        /\ fetch env url = Fulfilled.
Proof.
  unfold attempt.
  rewrite (submit_from_fresh env options data w). cbn [fst state].
  unfold attempt.
  by_submit_cases env options data (mkWorld idle []); cbn [fst snd state success log];
    rewrite ?app_nil_l, ?requests_Fetch, ?requests_OnSuccess,
      ?requests_catch_events, ?requests_success_events;
    (split; [intros Hs; try discriminate; eauto using in_eq
            | intros [u [Hin Hf]]; try reflexivity; simpl in Hin;
              try contradiction;
              destruct Hin as [<- | []]; congruence]).
Qed.

(** ** Callbacks *)

(** X7.  A call invokes [onError] at most once, and only from the [catch]
    block: never for a validation failure or a missing endpoint.  The
    [Error] it passes carries the very message the call leaves in [error]. *)
Theorem onError_receives_reported_error env options data w :
  exists calls,
    onError_calls (log (fst (submitToSheet env options data w)))
      = (onError_calls (log w) ++ calls)%list
    /\ length calls <= 1
    /\ forall e, In e calls ->
         error (state (fst (submitToSheet env options data w))) = Some (message e)
         /\ validateData options data = Normal None
         /\ falsy (NEXT_PUBLIC_GOOGLE_SCRIPT_URL env) = false.
Proof.
  assert (forall l err,
             onError_calls l = [] ->
             exists calls,
               onError_calls ((log w ++ l) ++ catch_events options err)
                 = (onError_calls (log w) ++ calls)%list
               /\ length calls <= 1
               /\ forall e, In e calls -> Some (errorMessage err) = Some (message e))
    as Hcatch.
  { intros l err Hl.
    exists (match onError options with Some _ => [as_Error err] | None => [] end).
    rewrite !onError_calls_app, Hl, app_nil_r, onError_calls_catch_events.
    split; [reflexivity | split; [destruct (onError options); simpl; lia|]].
    intros e Hin. destruct (onError options); simpl in Hin; [|contradiction].
    destruct Hin as [<- | []]. rewrite message_as_Error. reflexivity. }
  assert (forall l,
             onError_calls l = [] ->
             exists calls : list Error,
               onError_calls (log w ++ l) = (onError_calls (log w) ++ calls)%list
               /\ length calls <= 1
               /\ forall e, In e calls -> False) as Hquiet.
  { intros l Hl. exists []. rewrite onError_calls_app, Hl.
    split; [reflexivity | split; [simpl; lia | intros e []]]. }
  by_submit_cases env options data w; cbn [fst log state error].
  - destruct (Hquiet [] eq_refl) as [calls [Hc [Hlen Hnone]]].
    rewrite app_nil_r in Hc. exists calls. repeat split; auto; destruct (Hnone e0 H0).
  - destruct (Hquiet [] eq_refl) as [calls [Hc [Hlen Hnone]]].
    rewrite app_nil_r in Hc. exists calls. repeat split; auto; destruct (Hnone e H0).
  - destruct (Hquiet [] eq_refl) as [calls [Hc [Hlen Hnone]]].
    rewrite app_nil_r in Hc. exists calls. repeat split; auto; destruct (Hnone e H1).
  - destruct (Hcatch [] err eq_refl) as [calls [Hc [Hlen Hmsg]]].
    rewrite app_nil_r in Hc. exists calls. repeat split; auto.
    eapply configured_not_falsy; eassumption.
  - destruct (Hcatch [Fetch url] err eq_refl) as [calls [Hc [Hlen Hmsg]]].
    rewrite <- app_assoc in Hc. exists calls. repeat split; auto.
    eapply configured_not_falsy; eassumption.
  - destruct (Hquiet [Fetch url] eq_refl) as [calls [Hc [Hlen Hnone]]].
    exists calls. repeat split; auto; destruct (Hnone e H4).
  - destruct (Hquiet (Fetch url :: success_events options data)) as [calls [Hc [Hlen Hnone]]].
    { unfold success_events. destruct (onSuccess options); reflexivity. }
    exists calls. repeat split; auto; destruct (Hnone e H5).
  - destruct (Hcatch [Fetch url; OnSuccess data] err eq_refl) as [calls [Hc [Hlen Hmsg]]].
    rewrite <- app_assoc in Hc. exists calls. repeat split; auto.
    eapply configured_not_falsy; eassumption.
Qed.

Lemma onSuccess_calls_Fetch url l : onSuccess_calls (Fetch url :: l) = onSuccess_calls l.
Proof. reflexivity. Qed.

Lemma onSuccess_calls_OnSuccess data l :
  onSuccess_calls (OnSuccess data :: l) = data :: onSuccess_calls l.
Proof. reflexivity. Qed.

Lemma onSuccess_calls_success_events options data :
  onSuccess_calls (success_events options data)
    = match onSuccess options with Some _ => [data] | None => [] end.
Proof. unfold success_events. destruct (onSuccess options); reflexivity. Qed.

(** X8.  [onSuccess] is invoked exactly in the calls that end with
    [success = true], provided the callback was supplied; it is invoked
    once, with the record [submitToSheet] was given. *)
Theorem onSuccess_called_on_success env options data w :
  onSuccess_calls (log (fst (submitToSheet env options data w)))
    = (onSuccess_calls (log w)
         ++ match onSuccess options with
            | Some _ =>
                if success (state (fst (submitToSheet env options data w)))
                then [data] else []
            | None => []
            end)%list.
Proof.
  by_submit_cases env options data w; cbn [fst log state success];
    rewrite ?onSuccess_calls_app, ?onSuccess_calls_Fetch, ?onSuccess_calls_OnSuccess,
      ?onSuccess_calls_catch_events, ?onSuccess_calls_success_events;
    try match goal with H : onSuccess options = Some _ |- _ => rewrite H end;
    try reflexivity;
    destruct (onSuccess options); rewrite ?app_nil_r; reflexivity.
Qed.

(** ** What is sent *)

Lemma accepted_string_form (v : value) :
  accepted v = true ->
  ToBoolean v = true
  /\ exists s, String_ v = Normal s /\ all_white_space s = false.
Proof.
  destruct v as [| |[|]|[|[|]|z Hz|x Hx]|z|t|d|[t|e]];
    cbn [accepted ToBoolean String_ Number_toString]; try discriminate; intros H.
  - split; [reflexivity | eexists; split; reflexivity].
  - split; [reflexivity | eexists; split; reflexivity].
  - split; [reflexivity | eexists; split; reflexivity].
  - split; [exact H | eexists; split; [reflexivity | apply decimal_has_ink]].
  - split; [reflexivity | eexists; split; [reflexivity | exact Hx]].
  - split; [exact H | eexists; split; [reflexivity | apply decimal_has_ink]].
  - split.
    + destruct t; [discriminate H | reflexivity].
    + eexists; split; [reflexivity | apply negb_true_iff; exact H].
  - split; [reflexivity | eexists; split; [reflexivity | apply Symbol_has_ink]].
  - split; [reflexivity | eexists; split; [reflexivity | apply negb_true_iff; exact H]].
Qed.

Lemma own_In (o : record) key v : own o key = Some v -> In (key, v) o.
Proof.
  induction o as [|[k v'] o IH]; simpl; [discriminate|].
  destruct (String.eqb_spec k key) as [-> | Hne].
  - intros H. inversion H. left. reflexivity.
  - intros H. right. exact (IH H).
Qed.

Lemma get_own (o : record) key v : own o key = Some v -> get o key = v.
Proof. unfold get. intros ->. reflexivity. Qed.

Lemma Forall2_image {A B} (R : A -> B -> Prop) l l' x :
  Forall2 R l l' -> In x l -> exists y, In y l' /\ R x y.
Proof.
  induction 1 as [|a b l l' Hab _ IH]; [contradiction|].
  intros [<- | Hin].
  - exists b. split; [left; reflexivity | exact Hab].
  - destruct (IH Hin) as [y [Hy Hxy]]. exists y. split; [right|]; assumption.
Qed.

(** X9.  Without a transform, a required field that the record itself holds
    is never sent blank: when the request is made, each such field has a
    parameter of its own name whose value holds a character that is not
    white space.  (A required name that the record only inherits, such as
    [toString], passes validation but is not a key of the record, and no
    parameter is sent for it.) *)
Theorem required_fields_are_sent_filled env options data w scriptUrl url0 :
  validateData options data = Normal None ->
  NEXT_PUBLIC_GOOGLE_SCRIPT_URL env = Some scriptUrl ->
  scriptUrl <> "" ->
  URL_new env scriptUrl = Normal url0 ->
  transformData options = None ->
  Forall (fun e => coerces (snd e) = true) data ->
  exists url,
    requests (log (fst (submitToSheet env options data w)))
      = (requests (log w) ++ [url])%list
    /\ forall field, In field (validateRequired options) ->
         own data field <> None ->
         exists s, In (field, s) (searchParams url) /\ all_white_space s = false.
Proof.
  intros Hv Hu Hne Hurl Ht Hc.
  assert (Forall (fun e => coerces (snd e) = true) (Object_entries data)) as Hc'.
  { rewrite Forall_forall in *. intros e He. apply Hc, In_Object_entries, He. }
  destruct (forEach_append_params _ url0 Hc') as [params [Hrun Hall]].
  exists (mkURL (location url0) (searchParams url0 ++ params)). split.
  - apply (submit_requests env options data w scriptUrl); try assumption.
    unfold prepare, finalData. rewrite Hurl, Ht. exact Hrun.
  - intros field Hin Hown.
    destruct (own data field) as [v|] eqn:Hv'; [clear Hown | contradiction].
    pose proof (validate_fields_accepts _ _ Hv field Hin) as Ha.
    rewrite (get_own _ _ _ Hv') in Ha.
    destruct (accepted_string_form _ Ha) as [Hb [s [Hs Hink]]].
    apply own_In, In_Object_entries in Hv'.
    destruct (Forall2_image _ _ _ _ Hall Hv') as [[k s'] [Hp [Hk Hval]]].
    simpl in Hk, Hval. subst k. rewrite Hb, Hs in Hval. inversion Hval; subst s'.
    exists s. split; [|exact Hink].
    simpl. apply in_or_app. right. exact Hp.
Qed.

Lemma required_fields_are_sent_filled_witness :
  validateData require_contact contact = Normal None
  /\ exists url,
       requests (log (fst (submitToSheet online require_contact contact fresh))) = [url]
       /\ forall field, In field ["name"; "email"] ->
            own contact field <> None ->
            exists s, In (field, s) (searchParams url) /\ all_white_space s = false.
Proof.
  split; [reflexivity|].
  apply (required_fields_are_sent_filled online require_contact contact fresh endpoint
           (mkURL endpoint [])); try reflexivity.
  - discriminate.
  - repeat constructor.
Defined.

(** ** The names sent *)

Lemma forEach_append_keys entries : forall url url',
  forEach_append entries url = Normal url' ->
  exists params,
    searchParams url' = (searchParams url ++ params)%list
    /\ location url' = location url
    /\ map fst params = map fst entries.
Proof.
  induction entries as [|[k v] entries IH]; simpl; intros url url' H.
  - inversion H; subst. exists []. rewrite app_nil_r. auto.
  - destruct (String_ (or_ v (VString ""))) as [s|]; [|discriminate].
    destruct (IH _ _ H) as [params [Hs [Hl Hk]]].
    exists ((k, s) :: params). simpl in *. rewrite Hs, <- app_assoc, Hk. auto.
Qed.

(** X10.  Whatever request a call makes, it is addressed to the configured
    endpoint and adds to the endpoint's own query one parameter per key of
    the mapping it serialises (the transform's output, or the record): the
    names added are the keys of the mapping, none dropped, none repeated,
    in [Object.entries] order. *)
Theorem sent_names_are_the_mapping_keys env options data scriptUrl url0 final url :
  In url (requests (log (fst (attempt env options data)))) ->
  NEXT_PUBLIC_GOOGLE_SCRIPT_URL env = Some scriptUrl ->
  URL_new env scriptUrl = Normal url0 ->
  match transformData options with
  | Some transform => transform data
  | None => Normal data
  end = Normal final ->
  exists params,
    url = mkURL (location url0) (searchParams url0 ++ params)
    /\ map fst params = map fst (Object_entries final)
    /\ Permutation (map fst params) (map fst final).
Proof.
  intros Hin Hu Hurl Hfinal.
  assert (forEach_append (Object_entries final) url0 = Normal url) as Hrun.
  { revert Hin. unfold attempt.
    by_submit_cases env options data (mkWorld idle []); revert Hin;
      cbn [fst log]; rewrite ?app_nil_l, ?requests_Fetch, ?requests_OnSuccess,
        ?requests_catch_events, ?requests_success_events;
      simpl; try tauto;
      intros [<- | []];
      match goal with
      | Hp : prepare _ _ _ ?s = Normal _ |- _ =>
          assert (s = scriptUrl) by congruence; subst s;
          unfold prepare, finalData in Hp; rewrite Hurl, Hfinal in Hp; exact Hp
      end. }
  destruct (forEach_append_keys _ _ _ Hrun) as [params [Hs [Hl Hk]]].
  exists params. split; [|split].
  - destruct url as [loc ps]. simpl in *. subst. reflexivity.
  - exact Hk.
  - rewrite Hk. apply Permutation_map, Object_entries_permutation.
Qed.

Lemma sent_names_are_the_mapping_keys_witness :
  In (mkURL endpoint [("n", "A"); ("a", "5")])
     (requests (log (fst (attempt online shortening patient))))
  /\ exists params,
       mkURL endpoint [("n", "A"); ("a", "5")] = mkURL endpoint ([] ++ params)
       /\ map fst params = map fst (Object_entries [("n", VString "A"); ("a", VString "5")])
       /\ Permutation (map fst params) ["n"; "a"].
Proof.
  assert (In (mkURL endpoint [("n", "A"); ("a", "5")])
             (requests (log (fst (attempt online shortening patient))))) as Hin
    by (left; reflexivity).
  split; [exact Hin|].
  exact (sent_names_are_the_mapping_keys online shortening patient endpoint
           (mkURL endpoint []) [("n", VString "A"); ("a", VString "5")]
           (mkURL endpoint [("n", "A"); ("a", "5")]) Hin eq_refl eq_refl eq_refl).
Defined.

Lemma coerces_or_empty (v : value) :
  coerces v = true -> exists s, String_ (or_ v (VString "")) = Normal s.
Proof.
  unfold coerces, or_. intros H. destruct (ToBoolean v).
  - destruct (String_ v) as [s|]; [eauto | discriminate].
  - simpl. eauto.
Qed.

(** When some value does not coerce, the loop throws what [String(...)]
    throws on the first such value in the order of the entries. *)
Lemma forEach_append_first_throw entries : forall key v,
  In (key, v) entries -> coerces v = false ->
  exists before key' v' after err,
    entries = (before ++ (key', v') :: after)%list
    /\ Forall (fun e => coerces (snd e) = true) before
    /\ String_ v' = Throw err
    /\ forall url, forEach_append entries url = Throw err.
Proof.
  induction entries as [|[k0 v0] entries IH]; intros key v Hin Hc; [contradiction|].
  destruct (coerces v0) eqn:Hc0.
  - destruct Hin as [Heq | Hin]; [inversion Heq; subst; congruence|].
    destruct (IH key v Hin Hc) as [before [key' [v' [after [err [He [Hb [Hs Hrun]]]]]]]].
    exists ((k0, v0) :: before), key', v', after, err.
    split; [rewrite He; reflexivity|].
    split; [constructor; assumption|].
    split; [exact Hs|].
    intros url. simpl. destruct (coerces_or_empty v0 Hc0) as [s ->]. apply Hrun.
  - exists [], k0, v0, entries.
    unfold coerces in Hc0.
    destruct v0 as [| |[|]|n|z|t|d|[t|e]]; simpl in Hc0; try discriminate.
    exists e. repeat split; auto.
Qed.

(** X11.  One value that cannot be coerced to a string keeps the whole
    record back.  With [err] what [String(...)] throws on the first such
    value in [Object.entries] order, the loop throws [err] before [fetch] is
    reached: the call makes no request, logs [err] to the console, and ends
    with [success = false], [isSubmitting = false] and the message of [err]
    (or the fallback, when [err] is not an [Error]) in [error]. *)
Theorem unserialisable_value_sends_nothing env options data w scriptUrl url0 final key v :
  validateData options data = Normal None ->
  NEXT_PUBLIC_GOOGLE_SCRIPT_URL env = Some scriptUrl ->
  scriptUrl <> "" ->
  URL_new env scriptUrl = Normal url0 ->
  match transformData options with
  | Some transform => transform data
  | None => Normal data
  end = Normal final ->
  In (key, v) final ->
  coerces v = false ->
  exists before key' v' after err,
    Object_entries final = (before ++ (key', v') :: after)%list
    /\ Forall (fun e => coerces (snd e) = true) before
    /\ String_ v' = Throw err
    /\ requests (log (fst (submitToSheet env options data w))) = requests (log w)
    /\ In (ConsoleError err) (log (fst (submitToSheet env options data w)))
    /\ state (fst (submitToSheet env options data w))
       = mkState false
           (Some match err with
                 | ErrorInstance e => message e
                 | NonError => "Failed to submit data"
                 end)
           false.
Proof.
  intros Hv Hu Hne Hurl Hfinal Hin Hc.
  apply In_Object_entries in Hin.
  destruct (forEach_append_first_throw _ key v Hin Hc)
    as [before [key' [v' [after [err [He [Hb [Hs Hthrow]]]]]]]].
  exists before, key', v', after, err.
  assert (prepare env options data scriptUrl = Throw err) as Hp.
  { unfold prepare, finalData. rewrite Hurl, Hfinal. apply Hthrow. }
  rewrite (submit_prepare_throws _ _ _ w _ Hv Hu Hne err Hp). cbn [fst log state].
  split; [exact He | split; [exact Hb | split; [exact Hs | split; [|split]]]].
  - rewrite requests_app, requests_catch_events, app_nil_r. reflexivity.
  - apply in_or_app. right. unfold catch_events. left. reflexivity.
  - destruct err; reflexivity.
Qed.

Lemma unserialisable_value_sends_nothing_witness :
  coerces bare_object = false
  /\ exists before key' v' after err,
       Object_entries (contact ++ [("extra", bare_object)])%list
         = (before ++ (key', v') :: after)%list
       /\ Forall (fun e => coerces (snd e) = true) before
       /\ String_ v' = Throw err
       /\ requests (log (fst (submitToSheet online require_contact
                                (contact ++ [("extra", bare_object)])%list fresh))) = []
       /\ In (ConsoleError err)
             (log (fst (submitToSheet online require_contact
                          (contact ++ [("extra", bare_object)])%list fresh)))
       /\ state (fst (submitToSheet online require_contact
                        (contact ++ [("extra", bare_object)])%list fresh))
          = mkState false
              (Some match err with
                    | ErrorInstance e => message e
                    | NonError => "Failed to submit data"
                    end)
              false.
Proof.
  split; [reflexivity|].
  apply (unserialisable_value_sends_nothing online require_contact
           (contact ++ [("extra", bare_object)])%list fresh endpoint (mkURL endpoint [])
           (contact ++ [("extra", bare_object)])%list "extra" bare_object);
    try reflexivity.
  - discriminate.
  - right. right. left. reflexivity.
Defined.

(** ** [reset] and [submitToSheet] together *)

(** X12.  After any call that has settled without validation throwing,
    [reset] brings the three cells back to the state of a freshly mounted
    hook and leaves the log as the call left it. *)
Theorem reset_after_settled_call_is_idle env options data w :
  snd (submitToSheet env options data w) <> Suspended ->
  (exists v, validateData options data = Normal v) ->
  reset (fst (submitToSheet env options data w))
    = (mkWorld idle (log (fst (submitToSheet env options data w))), Returned tt).
Proof.
  by_submit_cases env options data w; cbn [fst snd] in *;
    try reflexivity; try congruence.
  match goal with H : exists _, _ |- _ => destruct H; congruence end.
Qed.

Lemma reset_after_settled_call_is_idle_witness :
  snd (submitToSheet online (onSuccess_throws "boom") contact fresh) <> Suspended
  /\ state (fst (submitToSheet online (onSuccess_throws "boom") contact fresh))
     = mkState false (Some "boom") true
  /\ state (fst (reset (fst (submitToSheet online (onSuccess_throws "boom") contact fresh))))
     = idle.
Proof.
  assert (snd (submitToSheet online (onSuccess_throws "boom") contact fresh) <> Suspended)
    as Hr by discriminate.
  split; [exact Hr | split; [reflexivity|]].
  rewrite (reset_after_settled_call_is_idle online (onSuccess_throws "boom") contact fresh
             Hr (ex_intro _ None eq_refl)).
  reflexivity.
Defined.

(** X13.  A [reset] before a call makes no difference to the call, and a
    second [reset] none to the first. *)
Theorem reset_is_absorbed env options data w :
  submitToSheet env options data (fst (reset w)) = submitToSheet env options data w
  /\ reset (fst (reset w)) = reset w.
Proof.
  split; [|reflexivity].
  rewrite (submit_from_fresh env options data (fst (reset w))),
    (submit_from_fresh env options data w).
  reflexivity.
Qed.

(** ** Inherited members and Unicode white space *)

(** A required name that every plain object inherits passes validation
    although the record does not hold it: [{name: "A"}] with [toString]
    required is sent, as [name=A]. *)
Example inherited_member_passes_validation :
  own [("name", VString "A")] "toString" = None
  /\ submitToSheet online (mkOptions None None ["toString"] None)
       [("name", VString "A")] fresh
     = (mkWorld (mkState false None true)
                [Fetch (mkURL endpoint [("name", "A")])],
        Returned tt).
Proof. split; reflexivity. Qed.

(** A string of U+2003 (EM SPACE) and U+FEFF is blank. *)
Example unicode_spaces_are_blank :
  trim (bytes [226; 128; 131; 239; 187; 191]%N) = ""
  /\ blank [("name", VString (bytes [226; 128; 131; 239; 187; 191]%N))] "name" = true.
Proof. split; reflexivity. Qed.

(** [trim] strips both ends and keeps the white space inside. *)
Example trim_keeps_the_inside :
  trim (" " ++ bytes [194; 160]%N ++ "a b" ++ bytes [226; 128; 169; 9]%N) = "a b".
Proof. reflexivity. Qed.

(** Numbers that are not safe integers are sent in their own string form. *)
Example other_doubles_are_sent_as_printed :
  requests (log (fst (submitToSheet online no_options
      [("ratio", VNumber (Double "1.5" eq_refl));
       ("big", VNumber (Double "18446744073709552000" eq_refl));
       ("huge", VNumber (Double "1e+21" eq_refl))] fresh)))
  = [mkURL endpoint
       [("ratio", "1.5"); ("big", "18446744073709552000"); ("huge", "1e+21")]].
Proof. reflexivity. Qed.
